(** * grant-buddy: the workspace-scoped context store (context_manager.py)

    A shallow embedding of [ContextManager], the file-backed repository of
    named company contexts, and the properties of its specification.

    - Python [str] is [string]; a string holds the UTF-8 bytes of the text,
      so that [workspace_key.encode()] is the list of its characters.
    - Python values handled by the [json] module are the inductive [json];
      a [dict] is an association list in insertion order.
    - The file system is a finite map from paths to file contents; a file
      holds a text, or bytes that [open(path, 'r')] cannot decode.  The
      directory user_contexts, which the constructor creates, is taken to
      exist, and [json.dump] is taken to write every value of [json] in
      full.
    - A method is a computation in a state-and-exception monad over the
      file system; [datetime.now().isoformat()] is the argument [now].
    - [hashlib.sha256] is the function of FIPS 180-4, and the [json] module
      is an interface with two laws, of which a reference implementation
      is given and proved lawful. *)

From Stdlib Require Import ZArith Ascii String List Lia.
From Stdlib Require Import DecimalString DecimalN DecimalPos.
From stdpp Require Import base option list gmap strings finite.

Local Open Scope string_scope.
Local Open Scope Z_scope.

(** ** hashlib.sha256 (FIPS 180-4), on 32-bit words carried by [Z] *)

Module Sha256.

Definition w32 (x : Z) : Z := x mod 2 ^ 32.
Definition add32 (x y : Z) : Z := w32 (x + y).
Definition rotr (n x : Z) : Z := Z.lor (Z.shiftr x n) (w32 (Z.shiftl x (32 - n))).
Definition not32 (x : Z) : Z := Z.lxor x 4294967295.

Definition Ch (x y z : Z) : Z := Z.lxor (Z.land x y) (Z.land (not32 x) z).
Definition Maj (x y z : Z) : Z :=
  Z.lxor (Z.lxor (Z.land x y) (Z.land x z)) (Z.land y z).
Definition bsig0 (x : Z) : Z := Z.lxor (Z.lxor (rotr 2 x) (rotr 13 x)) (rotr 22 x).
Definition bsig1 (x : Z) : Z := Z.lxor (Z.lxor (rotr 6 x) (rotr 11 x)) (rotr 25 x).
Definition ssig0 (x : Z) : Z := Z.lxor (Z.lxor (rotr 7 x) (rotr 18 x)) (Z.shiftr x 3).
Definition ssig1 (x : Z) : Z := Z.lxor (Z.lxor (rotr 17 x) (rotr 19 x)) (Z.shiftr x 10).

(** The round constants are the first 32 bits of the fractional parts of
    the cube roots of the first 64 primes, and the initial hash value those
    of the square roots of the first 8 primes. *)
Definition is_prime (n : nat) : bool :=
  forallb (fun d => negb (Nat.eqb (n mod d) 0)) (seq 2 (n - 2)).

Definition primes : list Z := map Z.of_nat (filter is_prime (seq 2 310)).

(** The largest r between lo and hi with r ^ 3 <= n, by bisection *)
Fixpoint cube_root (fuel : nat) (n lo hi : Z) : Z :=
  match fuel with
  | O => lo
  | S fuel' =>
      let mid := (lo + hi) / 2 in
      if mid * mid * mid <=? n then cube_root fuel' n mid hi
      else cube_root fuel' n lo mid
  end.

Definition K : list Z :=
  map (fun p => w32 (cube_root 48 (p * 2 ^ 96) 0 (2 ^ 40))) primes.

Record state := mkState { ha : Z; hb : Z; hc : Z; hd : Z; he : Z; hf : Z; hg : Z; hh : Z }.

Definition frac_sqrt (i : nat) : Z := w32 (Z.sqrt (nth i primes 0 * 2 ^ 64)).

Definition H0 : state :=
  mkState (frac_sqrt 0) (frac_sqrt 1) (frac_sqrt 2) (frac_sqrt 3)
          (frac_sqrt 4) (frac_sqrt 5) (frac_sqrt 6) (frac_sqrt 7).

(** Padding: the byte 0x80, zero bytes up to 56 modulo 64, then the bit
    length of the message as a 64-bit big-endian integer. *)
Definition be_bytes (n : nat) (x : Z) : list Z :=
  map (fun i => Z.land (Z.shiftr x (8 * Z.of_nat i)) 255) (rev (seq 0 n)).

Definition pad (msg : list Z) : list Z :=
  let len := Z.of_nat (length msg) in
  msg ++ [128] ++ repeat 0 (Z.to_nat ((55 - len) mod 64)) ++ be_bytes 8 (8 * len).

Fixpoint be_word (bs : list Z) (acc : Z) : Z :=
  match bs with
  | [] => acc
  | b :: bs' => be_word bs' (256 * acc + b)
  end.

(** The 16 message words of a block, then the remaining 48 of the schedule. *)
Fixpoint words (n : nat) (bs : list Z) : list Z :=
  match n with
  | O => []
  | S n' => be_word (take 4 bs) 0 :: words n' (drop 4 bs)
  end.

Fixpoint schedule (n : nat) (w : list Z) : list Z :=
  match n with
  | O => w
  | S n' =>
      let t := length w in
      let at_ i := nth (t - i) w 0 in
      schedule n' (w ++ [add32 (add32 (ssig1 (at_ 2%nat)) (at_ 7%nat))
                               (add32 (ssig0 (at_ 15%nat)) (at_ 16%nat))])
  end.

Definition round (s : state) (kw : Z * Z) : state :=
  let t1 := add32 (add32 (add32 (hh s) (bsig1 (he s))) (Ch (he s) (hf s) (hg s)))
                  (add32 (fst kw) (snd kw)) in
  let t2 := add32 (bsig0 (ha s)) (Maj (ha s) (hb s) (hc s)) in
  mkState (add32 t1 t2) (ha s) (hb s) (hc s) (add32 (hd s) t1) (he s) (hf s) (hg s).

Definition compress (s : state) (block : list Z) : state :=
  let w := schedule 48 (words 16 block) in
  let r := fold_left round (combine K w) s in
  mkState (add32 (ha s) (ha r)) (add32 (hb s) (hb r)) (add32 (hc s) (hc r))
          (add32 (hd s) (hd r)) (add32 (he s) (he r)) (add32 (hf s) (hf r))
          (add32 (hg s) (hg r)) (add32 (hh s) (hh r)).

Fixpoint blocks (n : nat) (bs : list Z) (s : state) : state :=
  match n with
  | O => s
  | S n' => blocks n' (drop 64 bs) (compress s (take 64 bs))
  end.

Definition digest (msg : list Z) : state :=
  let p := pad msg in blocks (length p / 64) p H0.

Definition hex_digit (x : Z) : ascii :=
  nth (Z.to_nat x) (list_ascii_of_string "0123456789abcdef") "0"%char.

Definition hex32 (x : Z) : string :=
  string_of_list_ascii
    (map (fun i : nat => hex_digit (Z.land (Z.shiftr x (4 * Z.of_nat i)) 15))
         [7; 6; 5; 4; 3; 2; 1; 0]%nat).

Definition encode (s : string) : list Z :=
  map (fun c => Z.of_nat (nat_of_ascii c)) (list_ascii_of_string s).

(** [hashlib.sha256(s.encode()).hexdigest()] *)
Definition hexdigest (s : string) : string :=
  let d := digest (encode s) in
  hex32 (ha d) ++ hex32 (hb d) ++ hex32 (hc d) ++ hex32 (hd d) ++
  hex32 (he d) ++ hex32 (hf d) ++ hex32 (hg d) ++ hex32 (hh d).

End Sha256.

(** ** Python values of the [json] module

    [None], [bool], [int], [str], [list] and [dict] with [str] keys.  A
    context record holds strings, lists of strings and mappings of those;
    [float] is left out. *)

Unset Elimination Schemes.
Inductive json : Type :=
  | JNull
  | JBool (b : bool)
  | JInt (z : Z)
  | JString (s : string)
  | JArray (items : list json)
  | JObject (fields : list (string * json)).
Set Elimination Schemes.

(** A [dict] with [str] keys, as an association list in insertion order. *)
Section Dict.
Context {V : Type}.

Fixpoint dict_get (k : string) (d : list (string * V)) : option V :=
  match d with
  | [] => None
  | (k', v) :: d' => if String.eqb k k' then Some v else dict_get k d'
  end.

(** [d[k] = v]: an existing key keeps its position. *)
Fixpoint dict_set (k : string) (v : V) (d : list (string * V)) : list (string * V) :=
  match d with
  | [] => [(k, v)]
  | (k', v') :: d' =>
      if String.eqb k k' then (k, v) :: d' else (k', v') :: dict_set k v d'
  end.

(** [del d[k]] *)
Fixpoint dict_del (k : string) (d : list (string * V)) : list (string * V) :=
  match d with
  | [] => []
  | (k', v') :: d' =>
      if String.eqb k k' then d' else (k', v') :: dict_del k d'
  end.

Definition dict_mem (k : string) (d : list (string * V)) : bool :=
  match dict_get k d with Some _ => true | None => false end.

Definition dict_keys (d : list (string * V)) : list string := map fst d.
End Dict.

(** Keys of a Python [dict] are pairwise distinct, at every depth. *)
Fixpoint wf_jsonb (v : json) : bool :=
  match v with
  | JArray items => forallb wf_jsonb items
  | JObject fields =>
      bool_decide (NoDup (map fst fields))
      && forallb (fun kv => wf_jsonb (snd kv)) fields
  | _ => true
  end.

Definition wf_json (v : json) : Prop := wf_jsonb v = true.

(** [dict(pairs)]: a repeated key keeps its first position and its last value. *)
Definition dict_of_pairs (pairs : list (string * json)) : list (string * json) :=
  fold_left (fun d kv => dict_set (fst kv) (snd kv) d) pairs [].

(** The value that [json.loads] reads from the text [json.dumps] writes
    for [v].  The two differ only when a mapping lists a key twice, which
    happens after an item assignment under a key that is not a [str]. *)
Fixpoint dedup (v : json) : json :=
  match v with
  | JArray items => JArray (map dedup items)
  | JObject fields =>
      JObject (dict_of_pairs (map (fun kv => (fst kv, dedup (snd kv))) fields))
  | _ => v
  end.

(** Truth value of a Python object in [if x:] *)
Definition truthy (v : json) : bool :=
  match v with
  | JNull => false
  | JBool b => b
  | JInt z => negb (z =? 0)
  | JString s => negb (String.eqb s EmptyString)
  | JArray items => match items with [] => false | _ => true end
  | JObject fields => match fields with [] => false | _ => true end
  end.

(** [str(z)] for a Python [int] *)
Definition str_of_int (z : Z) : string := NilZero.string_of_int (Z.to_int z).

(** ** The [json] module: [json.loads] and [json.dumps(_, indent=2)]

    The repository calls the module through this interface; [None] stands
    for [json.JSONDecodeError].  It relies on two laws only: a value is
    read back from its own serialisation, up to repeated keys, and a parsed
    document has distinct keys. *)
Class JsonCodec : Type := {
  json_loads : string -> option json;
  json_dumps : json -> string
}.

Class JsonLaws (C : JsonCodec) : Prop := {
  loads_dumps_dedup : forall v, json_loads (json_dumps v) = Some (dedup v);
  loads_wf : forall s v, json_loads s = Some v -> wf_json v
}.

(** ** Exceptions, and computations over the file system *)

Inductive exn : Type :=
  | JSONDecodeError
  | FileNotFoundError
  | AttributeError
  | TypeError
  | KeyError
  | IndexError
  | UnicodeDecodeError.

Definition exn_eqb (a b : exn) : bool :=
  match a, b with
  | JSONDecodeError, JSONDecodeError | FileNotFoundError, FileNotFoundError
  | AttributeError, AttributeError | TypeError, TypeError | KeyError, KeyError
  | IndexError, IndexError | UnicodeDecodeError, UnicodeDecodeError => true
  | _, _ => false
  end.

Inductive result (A : Type) : Type :=
  | Ok (a : A)
  | Raise (e : exn).
Arguments Ok {A} a.
Arguments Raise {A} e.

(** What a file holds: a text, or bytes that do not decode as one *)
Inductive content : Type :=
  | Text (text : string)
  | Undecodable.

(** Path of a file to what it holds *)
Abbreviation files := (gmap string content).

Definition M (A : Type) : Type := files -> result A * files.

Definition ret {A} (a : A) : M A := fun fs => (Ok a, fs).
Definition raise {A} (e : exn) : M A := fun fs => (Raise e, fs).
Definition bind {A B} (m : M A) (k : A -> M B) : M B :=
  fun fs => match m fs with
            | (Ok a, fs') => k a fs'
            | (Raise e, fs') => (Raise e, fs')
            end.

(** [try: body except (e1, e2, ...): handler] *)
Definition try_except {A} (body : M A) (caught : list exn) (handler : M A) : M A :=
  fun fs => match body fs with
            | (Ok a, fs') => (Ok a, fs')
            | (Raise e, fs') =>
                if existsb (exn_eqb e) caught then handler fs' else (Raise e, fs')
            end.

Notation "x <- m ;; k" := (bind m (fun x => k))
  (at level 100, m at next level, right associativity).
Notation "m ;;; k" := (bind m (fun _ => k))
  (at level 100, right associativity).

Definition os_path_exists (p : string) : M bool :=
  fun fs => (Ok (bool_decide (is_Some (fs !! p))), fs).

(** [open(p, 'r')] and the read of the whole file that [json.load] makes *)
Definition read_text (p : string) : M string :=
  fun fs => match fs !! p with
            | Some (Text c) => (Ok c, fs)
            | Some Undecodable => (Raise UnicodeDecodeError, fs)
            | None => (Raise FileNotFoundError, fs)
            end.

Definition write_text (p c : string) : M unit :=
  fun fs => (Ok tt, <[p := Text c]> fs).

(** ** Operations on Python objects used by the repository *)

(** [d.get(k, default)] *)
Definition py_get (d : json) (k : string) (default : json) : M json :=
  match d with
  | JObject fields =>
      ret (match dict_get k fields with Some v => v | None => default end)
  | _ => raise AttributeError
  end.

(** [list(d.keys())] *)
Definition py_keys (d : json) : M (list string) :=
  match d with
  | JObject fields => ret (dict_keys fields)
  | _ => raise AttributeError
  end.

(** [l[i] = v] for a list and an [int]: a negative index counts from
    the end. *)
Definition list_setitem (items : list json) (i : Z) (v : json) : M json :=
  let len := Z.of_nat (length items) in
  if (0 <=? i) && (i <? len) then ret (JArray (<[Z.to_nat i := v]> items))
  else if (- len <=? i) && (i <? 0) then
    ret (JArray (<[Z.to_nat (len + i) := v]> items))
  else raise IndexError.

(** [d[k] = v].  In a dict, a key that is not a [str] equals no key of a
    parsed document, so it makes a new last entry, which [json.dump]
    writes under the key's JSON text; a list or dict is unhashable.  A
    list takes an [int] or [bool] as index; nothing else supports item
    assignment. *)
Definition py_setitem (d : json) (k : json) (v : json) : M json :=
  match d with
  | JObject fields =>
      match k with
      | JString s => ret (JObject (dict_set s v fields))
      | JNull => ret (JObject (fields ++ [("null", v)]))
      | JBool b => ret (JObject (fields ++ [(if b then "true" else "false", v)]))
      | JInt z => ret (JObject (fields ++ [(str_of_int z, v)]))
      | JArray _ | JObject _ => raise TypeError
      end
  | JArray items =>
      match k with
      | JInt z => list_setitem items z v
      | JBool b => list_setitem items (if b then 1 else 0) v
      | _ => raise TypeError
      end
  | _ => raise TypeError
  end.

Definition is_substring (a b : string) : bool :=
  match String.index 0 a b with Some _ => true | None => false end.

(** [k in d] for a [str] k *)
Definition py_contains (d : json) (k : string) : M bool :=
  match d with
  | JObject fields => ret (dict_mem k fields)
  | JArray items =>
      ret (existsb (fun x => match x with
                             | JString s => String.eqb s k
                             | _ => false
                             end) items)
  | JString s => ret (is_substring k s)
  | _ => raise TypeError
  end.

(** [del d[k]] *)
Definition py_delitem (d : json) (k : string) : M json :=
  match d with
  | JObject fields =>
      if dict_mem k fields then ret (JObject (dict_del k fields)) else raise KeyError
  | _ => raise TypeError
  end.

(** ** class ContextManager *)

Section ContextManager.
Context {codec : JsonCodec}.

Definition base_storage_dir : string := "user_contexts".

(** [json.load(f)] on the text of an open file *)
Definition json_load (text : string) : M json :=
  match json_loads text with
  | Some v => ret v
  | None => raise JSONDecodeError
  end.

(** [hashlib.sha256(workspace_key.encode()).hexdigest()[:16]] *)
Definition key_hash (workspace_key : string) : string :=
  String.substring 0 16 (Sha256.hexdigest workspace_key).

Definition get_user_file_path (workspace_key : string) : M string :=
  ret (base_storage_dir ++ "/" ++ "contexts_" ++ key_hash workspace_key ++ ".json").

Definition load_contexts (workspace_key : string) : M json :=
  if String.eqb workspace_key EmptyString then ret (JObject [])
  else
    try_except
      (file_path <- get_user_file_path workspace_key ;;
       found <- os_path_exists file_path ;;
       if found : bool then (text <- read_text file_path ;; json_load text)
       else ret (JObject []))
      [FileNotFoundError; JSONDecodeError]
      (ret (JObject [])).

Definition save_contexts (contexts : json) (workspace_key : string) : M unit :=
  if String.eqb workspace_key EmptyString then ret tt
  else
    file_path <- get_user_file_path workspace_key ;;
    write_text file_path (json_dumps contexts).

Definition get_context_names (workspace_key : string) : M (list string) :=
  contexts <- load_contexts workspace_key ;;
  py_keys contexts.

Definition get_context (name workspace_key : string) : M json :=
  contexts <- load_contexts workspace_key ;;
  py_get contexts name JNull.

(** The body of [save_context] for any object passed as [name];
    [import_context] passes whatever the document holds as company_name. *)
Definition save_context_as (now : string) (name : json) (context_data : json)
    (workspace_key : string) : M unit :=
  if String.eqb workspace_key EmptyString then ret tt
  else
    contexts <- load_contexts workspace_key ;;
    context_data <- py_setitem context_data (JString "last_updated") (JString now) ;;
    contexts <- py_setitem contexts name context_data ;;
    save_contexts contexts workspace_key.

Definition save_context (now : string) (name : string) (context_data : json)
    (workspace_key : string) : M unit :=
  save_context_as now (JString name) context_data workspace_key.

Definition delete_context (name workspace_key : string) : M unit :=
  if String.eqb workspace_key EmptyString then ret tt
  else
    contexts <- load_contexts workspace_key ;;
    present <- py_contains contexts name ;;
    if present : bool then
      (contexts <- py_delitem contexts name ;;
       save_contexts contexts workspace_key)
    else ret tt.

Definition export_context (name workspace_key : string) : M (option string) :=
  context <- get_context name workspace_key ;;
  if truthy context then ret (Some (json_dumps context)) else ret None.

Definition import_context (now : string) (json_string workspace_key : string)
    (context_name : option string) : M bool :=
  if String.eqb workspace_key EmptyString then ret false
  else
    try_except
      (context_data <- json_load json_string ;;
       name <- match context_name with
               | Some n => if String.eqb n EmptyString then
                             py_get context_data "company_name" (JString "Imported Context")
                           else ret (JString n)
               | None => py_get context_data "company_name" (JString "Imported Context")
               end ;;
       save_context_as now name context_data workspace_key ;;;
       ret true)
      [JSONDecodeError]
      (ret false).

End ContextManager.

(** ** Specification vocabulary *)

(** The path that [get_user_file_path] computes *)
Definition tenant_path (w : string) : string :=
  base_storage_dir ++ "/" ++ "contexts_" ++ key_hash w ++ ".json".

(** What [load_contexts] makes of the tenant document of a non-empty
    workspace key: the collection, or the error it raises *)
Definition tenant_doc {codec : JsonCodec} (fs : files) (w : string) : result json :=
  match fs !! tenant_path w with
  | Some (Text text) => Ok (match json_loads text with
                            | Some v => v
                            | None => JObject []
                            end)
  | Some Undecodable => Raise UnicodeDecodeError
  | None => Ok (JObject [])
  end.

(** The error of a call that fails on the collection it loaded: the one
    that [load_contexts] raised, or else [TypeError] *)
Definition load_error (loaded : result json) : exn :=
  match loaded with
  | Raise e => e
  | Ok _ => TypeError
  end.

(** Every file holds a text, which is a mapping when it parses.  The
    repository writes no other kind of file into such a file system, so
    every collection it loads there is a mapping. *)
Definition documents_are_mappings {codec : JsonCodec} (fs : files) : Prop :=
  forall path c,
    fs !! path = Some c ->
    exists text,
      c = Text text
      /\ forall v, json_loads text = Some v -> exists kvs, v = JObject kvs.

(** [context_data.get("preferred_grant_criteria") or
    copy.deepcopy(DEFAULT_PREFERRED_CRITERIA)]: the criteria that
    [render_context_editor] shows for a record it has read *)
Definition editor_criteria (default_criteria context_data : json) : M json :=
  crit <- py_get context_data "preferred_grant_criteria" JNull ;;
  ret (if truthy crit then crit else default_criteria).

(** [import_context(export_context(n, w), w2)]: an export that returns
    [None] makes [json.loads] raise [TypeError]. *)
Definition export_import {codec : JsonCodec} (now n w w2 : string) : M bool :=
  text <- export_context n w ;;
  match text with
  | Some t => import_context now t w2 None
  | None => raise TypeError
  end.

(** [import_context] was called with a name that is not empty. *)
Definition name_given (name : option string) : bool :=
  match name with
  | Some n => negb (String.eqb n EmptyString)
  | None => false
  end.

(** Two fields hold ISO-8601 timestamps, the first not later than the
    second; timestamps of one format compare as strings. *)
Definition timestamp_le (a b : option json) : Prop :=
  exists s t, a = Some (JString s) /\ b = Some (JString t) /\ String.leb s t = true.

(** A record whose preferred_grant_criteria holds an empty strong_yes *)
Definition criteria_defaulted (r : json) : Prop :=
  exists fields crit,
    r = JObject fields
    /\ dict_get "preferred_grant_criteria" fields = Some (JObject crit)
    /\ dict_get "strong_yes" crit = Some (JArray []).

(** Every character, and every string of a bounded length *)
Definition all_ascii : list ascii := map ascii_of_nat (seq 0 256).

Fixpoint strings_upto (n : nat) : list string :=
  match n with
  | O => [EmptyString]
  | S n' =>
      EmptyString
      :: flat_map (fun s => map (fun c => String c s) all_ascii) (strings_upto n')
  end.

(** Pairwise distinct non-empty workspace keys: a, aa, aaa, ... *)
Fixpoint ident (i : nat) : string :=
  match i with
  | O => "a"
  | S i' => String "a" (ident i')
  end.

(** A call that may write: [save_context], [delete_context] or
    [import_context] with its arguments *)
Inductive mutation : Type :=
  | SaveContext (now : string) (name context_data : json) (workspace_key : string)
  | DeleteContext (name workspace_key : string)
  | ImportContext (now json_string workspace_key : string)
                  (context_name : option string).

Definition workspace_of (op : mutation) : string :=
  match op with
  | SaveContext _ _ _ w | DeleteContext _ w | ImportContext _ _ w _ => w
  end.

(** The call; [import_context] alone returns a value. *)
Definition run {codec : JsonCodec} (op : mutation) : M bool :=
  match op with
  | SaveContext now name context_data w =>
      save_context_as now name context_data w ;;; ret true
  | DeleteContext name w => delete_context name w ;;; ret true
  | ImportContext now json_string w context_name =>
      import_context now json_string w context_name
  end.



(** The reads of workspace [w] answer in [fs'] as they do in [fs]. *)
Definition reads_agree {codec : JsonCodec} (w : string) (fs fs' : files) : Prop :=
  fst (get_context_names w fs') = fst (get_context_names w fs)
  /\ forall n,
       fst (get_context n w fs') = fst (get_context n w fs)
       /\ fst (export_context n w fs') = fst (export_context n w fs).




(** ** [str] methods used by the pages *)

(** [s.strip()].  Which characters are whitespace is the business of
    Python's Unicode tables, so the pages are modelled over any [strip]
    with the laws below; [ascii_strip] is [str.strip] on ASCII text, and
    leaves whitespace outside ASCII, such as U+00A0, where it is. *)
Class StrStrip : Type := { py_strip : string -> string }.

Class StripLaws (S : StrStrip) : Prop := {
  strip_idem : forall s, py_strip (py_strip s) = py_strip s;
  strip_space : forall s, py_strip (String " " s) = py_strip s;
  strip_within : forall s, exists a b, s = a ++ py_strip s ++ b
}.

(** [c.isspace()] for an ASCII character: tab to carriage return, the
    four separators 0x1c to 0x1f, and the space *)
Definition is_space (c : ascii) : bool :=
  let n := nat_of_ascii c in
  (Nat.leb 9 n && Nat.leb n 13) || (Nat.leb 28 n && Nat.leb n 32).

Fixpoint lstrip (s : string) : string :=
  match s with
  | EmptyString => EmptyString
  | String c s' => if is_space c then lstrip s' else s
  end.

Fixpoint rstrip (s : string) : string :=
  match s with
  | EmptyString => EmptyString
  | String c s' =>
      match rstrip s' with
      | EmptyString => if is_space c then EmptyString else String c EmptyString
      | t => String c t
      end
  end.

Definition ascii_strip (s : string) : string := rstrip (lstrip s).

Definition python_strip : StrStrip := {| py_strip := ascii_strip |}.

(** [s.split(",")] *)
Fixpoint split_comma (s : string) : list string :=
  match s with
  | EmptyString => [EmptyString]
  | String c s' =>
      if Ascii.eqb c "," then EmptyString :: split_comma s'
      else match split_comma s' with
           | piece :: rest => String c piece :: rest
           | [] => [String c EmptyString]
           end
  end.

(** [s] holds no comma. *)
Fixpoint comma_free (s : string) : bool :=
  match s with
  | EmptyString => true
  | String c s' => negb (Ascii.eqb c ",") && comma_free s'
  end.

(** [", ".join(xs)] for a list of [str] *)
Fixpoint join_comma (xs : list string) : string :=
  match xs with
  | [] => EmptyString
  | [x] => x
  | x :: rest => x ++ ", " ++ join_comma rest
  end.

(** The characters of a [str]: a UTF-8 lead byte with the continuation
    bytes (0x80 to 0xbf) that follow it *)
Definition is_continuation (c : ascii) : bool :=
  let n := nat_of_ascii c in Nat.leb 128 n && Nat.leb n 191.

Fixpoint py_chars (s : string) : list string :=
  match s with
  | EmptyString => []
  | String c s' =>
      let follows := match s' with
                     | String c' _ => is_continuation c'
                     | EmptyString => false
                     end in
      match py_chars s' with
      | ch :: rest =>
          if follows then String c ch :: rest
          else String c EmptyString :: ch :: rest
      | [] => [String c EmptyString]
      end
  end.

(** The items of an object that [str.join] iterates, when all are [str] *)
Fixpoint all_str (items : list json) : option (list string) :=
  match items with
  | [] => Some []
  | JString s :: rest => option_map (cons s) (all_str rest)
  | _ :: _ => None
  end.

(** [", ".join(v)] for any object: a list must hold only [str]; a [str]
    gives its characters and a dict its keys; nothing else is iterable. *)
Definition py_join (v : json) : M string :=
  match v with
  | JArray items =>
      match all_str items with
      | Some xs => ret (join_comma xs)
      | None => raise TypeError
      end
  | JString s => ret (join_comma (py_chars s))
  | JObject fields => ret (join_comma (dict_keys fields))
  | JNull | JBool _ | JInt _ => raise TypeError
  end.

(** ** The pages of context_manager.py *)

(** The generic criteria that the module falls back on when [info]
    cannot be imported *)
Definition generic_criteria : json :=
  JObject
    [("strong_yes",
      JArray (map JString
        ["SBIR"; "STTR"; "early-stage"; "Phase I"; "Phase II";
         "emerging technology"; "small business innovation";
         "commercialization pathway"; "technology de-risking";
         "startup-friendly"; "NSF"; "pilot project"; "dual-use"]));
     ("conditional_yes",
      JObject
        [("technical_systems",
          JArray (map JString
            ["resilient systems"; "zero-trust"; "autonomous"; "decision-making";
             "secure data workflows"; "operational AI"]));
         ("sociotech_modeling",
          JArray (map JString
            ["human decision-making"; "data-informed decisions";
             "mission planning"; "workflow augmentation"; "data visualization"]))]);
     ("strong_no",
      JArray (map JString
        ["urban planning"; "transportation modeling";
         "community behavior analytics"; "infrastructure investment";
         "socioeconomic planning"]))].

(** [info.preferred_grant_criteria] when the import succeeds *)
Definition DEFAULT_PREFERRED_CRITERIA (info : option json) : json :=
  match info with
  | Some criteria => criteria
  | None => generic_criteria
  end.

(** Values are immutable here, so [copy.deepcopy] is the identity. *)
Definition create_default_context (default_criteria : json) (now : string) : json :=
  JObject
    [("company_name", JString EmptyString);
     ("company_context", JString EmptyString);
     ("preferred_grant_criteria", default_criteria);
     ("created", JString now);
     ("last_updated", JString now)].

Section Pages.
Context {codec : JsonCodec} {strip : StrStrip}.

(** [st.session_state] as far as [get_workspace_key] uses it: the
    workspace key, if the session has the entry *)
Definition session : Type := option string.

(** The prompt as one run of the script sees it *)
Record key_prompt := {
  key_1 : string;
  key_2 : string;
  access_pressed : bool
}.

(** A run returns the key, or Streamlit ends it: [st.stop()] after the
    error shown, if any, or [st.rerun()]. *)
Inductive key_result :=
  | ReturnKey (workspace_key : string)
  | StStop (error : option string)
  | StRerun.

Definition get_workspace_key (ui : key_prompt) (s : session) : key_result * session :=
  let workspace_key := match s with Some k => k | None => EmptyString end in
  if String.eqb workspace_key EmptyString then
    if access_pressed ui then
      if String.eqb (py_strip (key_1 ui)) EmptyString then
        (StStop (Some "Please enter a workspace key."), Some workspace_key)
      else if negb (String.eqb (py_strip (key_1 ui)) (py_strip (key_2 ui))) then
        (StStop (Some "The keys don't match."), Some workspace_key)
      else (StRerun, Some (py_strip (key_1 ui)))
    else (StStop None, Some workspace_key)
  else (ReturnKey workspace_key, Some workspace_key).

(** The session after one run of the script for each state of the prompt *)
Fixpoint script_runs (uis : list key_prompt) (s : session) : session :=
  match uis with
  | [] => s
  | ui :: rest => script_runs rest (snd (get_workspace_key ui s))
  end.

(** The strings between the commas of [s], stripped, without those that
    are empty once stripped *)
Definition _split_csv (s : string) : list string :=
  map py_strip
    (List.filter (fun x => negb (String.eqb (py_strip x) EmptyString))
       (split_comma s)).

(** What [_split_csv] returns: keywords that are not empty, hold no
    comma and no whitespace around them *)
Definition is_keyword (x : string) : Prop :=
  x <> EmptyString /\ py_strip x = x /\ comma_free x = true.

(** Criteria of the shape that the module's defaults and the editor's
    records have, with the four lists of keywords *)
Definition criteria_record (strong_yes technical_systems sociotech_modeling
    strong_no : list string) : json :=
  JObject
    [("strong_yes", JArray (map JString strong_yes));
     ("conditional_yes",
      JObject [("technical_systems", JArray (map JString technical_systems));
               ("sociotech_modeling", JArray (map JString sociotech_modeling))]);
     ("strong_no", JArray (map JString strong_no))].

(** The four strings that [render_context_editor] puts in the criteria
    text areas for the record it has read *)
Definition criteria_strings (default_criteria context_data : json)
    : M (string * string * string * string) :=
  crit <- editor_criteria default_criteria context_data ;;
  strong_yes <- py_get crit "strong_yes" (JArray []) ;;
  strong_yes_str <- py_join strong_yes ;;
  strong_no <- py_get crit "strong_no" (JArray []) ;;
  strong_no_str <- py_join strong_no ;;
  cond_yes <- py_get crit "conditional_yes" (JObject []) ;;
  technical_systems <- py_get cond_yes "technical_systems" (JArray []) ;;
  tech_sys_str <- py_join technical_systems ;;
  sociotech_modeling <- py_get cond_yes "sociotech_modeling" (JArray []) ;;
  socio_str <- py_join sociotech_modeling ;;
  ret (strong_yes_str, strong_no_str, tech_sys_str, socio_str).

(** The widgets of the editor when Save Context is pressed *)
Record editor_form := {
  company_name : string;
  company_context_text : string;
  strong_yes_str : string;
  strong_no_str : string;
  tech_sys_str : string;
  socio_str : string
}.

(** The form whose criteria text areas hold the strings that the editor
    put there, the other widgets as in [form] *)
Definition with_criteria (form : editor_form)
    (strings : string * string * string * string) : editor_form :=
  let '(strong_yes, strong_no, tech_sys, socio) := strings in
  {| company_name := company_name form;
     company_context_text := company_context_text form;
     strong_yes_str := strong_yes;
     strong_no_str := strong_no;
     tech_sys_str := tech_sys;
     socio_str := socio |}.

Inductive editor_result :=
  | NameRequired
  | Saved (final_name : string).

Definition keywords (s : string) : json := JArray (map JString (_split_csv s)).

Definition updated_criteria (form : editor_form) : json :=
  JObject
    [("strong_yes", keywords (strong_yes_str form));
     ("conditional_yes",
      JObject [("technical_systems", keywords (tech_sys_str form));
               ("sociotech_modeling", keywords (socio_str form))]);
     ("strong_no", keywords (strong_no_str form))].

(** The branch of [render_context_editor] that Save Context runs *)
Definition editor_save (now : string) (form : editor_form) (workspace_key : string)
    : M editor_result :=
  if String.eqb (py_strip (company_name form)) EmptyString then ret NameRequired
  else
    let final_name := py_strip (company_name form) in
    let updated :=
      JObject
        [("company_name", JString final_name);
         ("company_context", JString (py_strip (company_context_text form)));
         ("preferred_grant_criteria", updated_criteria form)] in
    save_context now final_name updated workspace_key ;;;
    ret (Saved final_name).

End Pages.

(** ** company_config.py *)

(** [if env_val:] for what [os.getenv] returns *)
Definition env_truthy (env_val : option string) : bool :=
  match env_val with
  | Some s => negb (String.eqb s EmptyString)
  | None => false
  end.

(** [try: body except Exception: handler] for code that touches no file *)
Definition try_any {A} (body : result A) (handler : result A) : result A :=
  match body with
  | Ok a => Ok a
  | Raise _ => handler
  end.

(** [service_account] is what evaluating
    dict(st.secrets["gcp"]["service_account"]) gives. *)
Definition get_gcp_service_account {codec : JsonCodec} (environ : gmap string string)
    (service_account : result json) : result json :=
  match environ !! "GOOGLE_SERVICE_ACCOUNT_JSON" with
  | Some json_str =>
      if env_truthy (Some json_str) then
        try_any
          (match json_loads json_str with
           | Some v => Ok v
           | None => Raise JSONDecodeError
           end)
          (Ok JNull)
      else try_any service_account (Ok JNull)
  | None => try_any service_account (Ok JNull)
  end.

(** ** A reference implementation of the [json] module

    [dumps] writes what [json.dumps(v, indent=2)] writes and [loads] reads
    the JSON grammar as [json.loads] does, for documents of ASCII text
    whose numbers are integers.  Outside of that it differs from Python in
    these places: a byte above 0x7F is written and read as it is (Python
    writes it as a \u escape of its code point and reads both forms; the
    value read back is the same); [json] has no float, so a number with a
    fraction or an exponent is rejected, and so are NaN, Infinity and
    -Infinity (Python reads each as a float); a \u escape of a surrogate
    that is not part of a pair is rejected (Python keeps the lone
    surrogate). *)

Module PyJson.

Local Open Scope char_scope.
Local Open Scope list_scope.

Definition chars (s : string) : list ascii := list_ascii_of_string s.

Definition dquote : ascii := "034".
Definition bslash : ascii := "092".

Definition is_ws (c : ascii) : bool :=
  Ascii.eqb c " " || Ascii.eqb c "009" || Ascii.eqb c "010" || Ascii.eqb c "013".

Fixpoint skip_ws (s : list ascii) : list ascii :=
  match s with
  | c :: s' => if is_ws c then skip_ws s' else s
  | [] => []
  end.

Fixpoint strip_prefix (p s : list ascii) : option (list ascii) :=
  match p, s with
  | [], _ => Some s
  | a :: p', b :: s' => if Ascii.eqb a b then strip_prefix p' s' else None
  | _ :: _, [] => None
  end.

(** *** Strings *)

Definition hex_digit (n : N) : ascii :=
  nth (N.to_nat n) (chars "0123456789abcdef") "0".

Definition hex_val (c : ascii) : option N :=
  let n := N_of_ascii c in
  if (48 <=? n)%N && (n <=? 57)%N then Some (n - 48)%N
  else if (97 <=? n)%N && (n <=? 102)%N then Some (n - 87)%N
  else if (65 <=? n)%N && (n <=? 70)%N then Some (n - 55)%N
  else None.

Definition hex4 (a b c d : ascii) : option N :=
  match hex_val a, hex_val b, hex_val c, hex_val d with
  | Some x, Some y, Some z, Some w => Some (((x * 16 + y) * 16 + z) * 16 + w)%N
  | _, _, _, _ => None
  end.

(** [ESCAPE_ASCII]: quote, backslash, and everything outside 0x20..0x7E *)
Definition escape_char (c : ascii) : list ascii :=
  let n := N_of_ascii c in
  if Ascii.eqb c dquote then [bslash; dquote]
  else if Ascii.eqb c bslash then [bslash; bslash]
  else if Ascii.eqb c "010" then [bslash; "n"]
  else if Ascii.eqb c "013" then [bslash; "r"]
  else if Ascii.eqb c "009" then [bslash; "t"]
  else if Ascii.eqb c "008" then [bslash; "b"]
  else if Ascii.eqb c "012" then [bslash; "f"]
  else if (n <? 32)%N || (n =? 127)%N then
    [bslash; "u"; "0"; "0"; hex_digit (n / 16)%N; hex_digit (n mod 16)%N]
  else [c].

Definition dumps_str (s : string) : list ascii :=
  dquote :: flat_map escape_char (chars s) ++ [dquote].

(** UTF-8 bytes of a code point *)
Definition utf8 (cp : N) : list ascii :=
  let byte (n : N) := ascii_of_N n in
  (if cp <? 128 then [byte cp]
   else if cp <? 2048 then [byte (192 + cp / 64); byte (128 + cp mod 64)]
   else if cp <? 65536 then
     [byte (224 + cp / 4096); byte (128 + (cp / 64) mod 64); byte (128 + cp mod 64)]
   else
     [byte (240 + cp / 262144); byte (128 + (cp / 4096) mod 64);
      byte (128 + (cp / 64) mod 64); byte (128 + cp mod 64)])%N.

Definition cons_fst {A B} (a : A) (r : option (list A * B)) : option (list A * B) :=
  match r with Some (l, b) => Some (a :: l, b) | None => None end.

Definition app_fst {A B} (a : list A) (r : option (list A * B)) : option (list A * B) :=
  match r with Some (l, b) => Some (a ++ l, b) | None => None end.

(** The characters of a string literal after its opening quote, up to and
    including the closing quote. *)
Fixpoint parse_chars (s : list ascii) : option (list ascii * list ascii) :=
  match s with
  | [] => None
  | c :: r =>
      if Ascii.eqb c dquote then Some ([], r)
      else if Ascii.eqb c bslash then
        match r with
        | [] => None
        | e :: r1 =>
            if Ascii.eqb e dquote || Ascii.eqb e bslash || Ascii.eqb e "/" then
              cons_fst e (parse_chars r1)
            else if Ascii.eqb e "b" then cons_fst "008" (parse_chars r1)
            else if Ascii.eqb e "f" then cons_fst "012" (parse_chars r1)
            else if Ascii.eqb e "n" then cons_fst "010" (parse_chars r1)
            else if Ascii.eqb e "r" then cons_fst "013" (parse_chars r1)
            else if Ascii.eqb e "t" then cons_fst "009" (parse_chars r1)
            else if Ascii.eqb e "u" then
              match r1 with
              | h1 :: h2 :: h3 :: h4 :: r2 =>
                  match hex4 h1 h2 h3 h4 with
                  | None => None
                  | Some cp =>
                      if (55296 <=? cp)%N && (cp <? 56320)%N then
                        (* a high surrogate must open a pair *)
                        match r2 with
                        | b :: u :: l1 :: l2 :: l3 :: l4 :: r3 =>
                            match hex4 l1 l2 l3 l4 with
                            | Some lo =>
                                if Ascii.eqb b bslash && Ascii.eqb u "u"
                                   && (56320 <=? lo)%N && (lo <? 57344)%N
                                then app_fst
                                       (utf8 (65536 + (cp - 55296) * 1024 + (lo - 56320))%N)
                                       (parse_chars r3)
                                else None
                            | None => None
                            end
                        | _ => None
                        end
                      else if (56320 <=? cp)%N && (cp <? 57344)%N then None
                      else app_fst (utf8 cp) (parse_chars r2)
                  end
              | _ => None
              end
            else None
        end
      else if (N_of_ascii c <? 32)%N then None
      else cons_fst c (parse_chars r)
  end.

(** *** Integers *)

Definition is_digit (c : ascii) : bool :=
  (48 <=? N_of_ascii c)%N && (N_of_ascii c <=? 57)%N.

Fixpoint span_digits (s : list ascii) : list ascii * list ascii :=
  match s with
  | c :: s' =>
      if is_digit c then let '(ds, r) := span_digits s' in (c :: ds, r)
      else ([], s)
  | [] => ([], [])
  end.

(** The next character continues a number as a fraction or an exponent. *)
Definition starts_float (s : list ascii) : bool :=
  match s with
  | c :: _ => Ascii.eqb c "." || Ascii.eqb c "e" || Ascii.eqb c "E"
  | [] => false
  end.

(** An optional minus sign, then either 0 or digits that start with a
    nonzero one: the decimal form without superfluous leading zeros. *)
Definition parse_int (s : list ascii) : option (Z * list ascii) :=
  let '(neg, s1) := match s with
                    | c :: r => if Ascii.eqb c "-" then (true, r) else (false, s)
                    | [] => (false, s)
                    end in
  let '(ds, r) := span_digits s1 in
  match NilEmpty.uint_of_string (string_of_list_ascii ds) with
  | Some d =>
      if Decimal.uint_beq (Decimal.unorm d) d && negb (starts_float r) then
        let n := Z.of_N (N.of_uint d) in
        Some (if neg : bool then (- n)%Z else n, r)
      else None
  | None => None
  end.

(** *** Values *)

Fixpoint parse_value (fuel : nat) (s : list ascii) : option (json * list ascii) :=
  match fuel with
  | O => None
  | S f =>
      match skip_ws s with
      | [] => None
      | c :: r =>
          if Ascii.eqb c "n" then
            match strip_prefix (chars "ull") r with
            | Some r' => Some (JNull, r') | None => None end
          else if Ascii.eqb c "t" then
            match strip_prefix (chars "rue") r with
            | Some r' => Some (JBool true, r') | None => None end
          else if Ascii.eqb c "f" then
            match strip_prefix (chars "alse") r with
            | Some r' => Some (JBool false, r') | None => None end
          else if Ascii.eqb c dquote then
            match parse_chars r with
            | Some (cs, r') => Some (JString (string_of_list_ascii cs), r')
            | None => None
            end
          else if Ascii.eqb c "[" then
            match skip_ws r with
            | c' :: r' =>
                if Ascii.eqb c' "]" then Some (JArray [], r')
                else match parse_elems f r with
                     | Some (items, r'') => Some (JArray items, r'')
                     | None => None
                     end
            | [] => None
            end
          else if Ascii.eqb c "{" then
            match skip_ws r with
            | c' :: r' =>
                if Ascii.eqb c' "}" then Some (JObject [], r')
                else match parse_members f r with
                     | Some (pairs, r'') => Some (JObject (dict_of_pairs pairs), r'')
                     | None => None
                     end
            | [] => None
            end
          else
            match parse_int (c :: r) with
            | Some (z, r') => Some (JInt z, r')
            | None => None
            end
      end
  end
with parse_elems (fuel : nat) (s : list ascii) : option (list json * list ascii) :=
  match fuel with
  | O => None
  | S f =>
      match parse_value f s with
      | Some (v, r) =>
          match skip_ws r with
          | c :: r' =>
              if Ascii.eqb c "," then cons_fst v (parse_elems f r')
              else if Ascii.eqb c "]" then Some ([v], r')
              else None
          | [] => None
          end
      | None => None
      end
  end
with parse_members (fuel : nat) (s : list ascii)
    : option (list (string * json) * list ascii) :=
  match fuel with
  | O => None
  | S f =>
      match skip_ws s with
      | q :: r =>
          if Ascii.eqb q dquote then
            match parse_chars r with
            | Some (k, r1) =>
                match skip_ws r1 with
                | c :: r2 =>
                    if Ascii.eqb c ":" then
                      match parse_value f r2 with
                      | Some (v, r3) =>
                          match skip_ws r3 with
                          | d :: r4 =>
                              if Ascii.eqb d "," then
                                cons_fst (string_of_list_ascii k, v) (parse_members f r4)
                              else if Ascii.eqb d "}" then
                                Some ([(string_of_list_ascii k, v)], r4)
                              else None
                          | [] => None
                          end
                      | None => None
                      end
                    else None
                | [] => None
                end
            | None => None
            end
          else None
      | [] => None
      end
  end.

(** [json.loads]: one value, then nothing but white space. *)
Definition loads (s : string) : option json :=
  let cs := chars s in
  match parse_value (S (length cs)) cs with
  | Some (v, r) => match skip_ws r with [] => Some v | _ :: _ => None end
  | None => None
  end.

(** A line break and the indentation of nesting depth [lvl] *)
Definition nl (lvl : nat) : list ascii := "010" :: repeat " " (2 * lvl).

Fixpoint join (sep : list ascii) (parts : list (list ascii)) : list ascii :=
  match parts with
  | [] => []
  | [p] => p
  | p :: ps => p ++ sep ++ join sep ps
  end.

Fixpoint dumps_at (lvl : nat) (v : json) : list ascii :=
  match v with
  | JNull => chars "null"
  | JBool b => if b then chars "true" else chars "false"
  | JInt z => chars (str_of_int z)
  | JString s => dumps_str s
  | JArray items =>
      match items with
      | [] => chars "[]"
      | _ :: _ =>
          "[" :: join [","] (map (fun x => nl (S lvl) ++ dumps_at (S lvl) x) items)
          ++ nl lvl ++ ["]"]
      end
  | JObject fields =>
      match fields with
      | [] => chars "{}"
      | _ :: _ =>
          "{" :: join [","]
                   (map (fun kv => nl (S lvl) ++ dumps_str (fst kv) ++ chars ": "
                                   ++ dumps_at (S lvl) (snd kv)) fields)
          ++ nl lvl ++ ["}"]
      end
  end.

(** [json.dumps(v, indent=2)] *)
Definition dumps (v : json) : string := string_of_list_ascii (dumps_at 0 v).

(** *** Shapes and measures used to state the laws *)

(** The next character cannot extend a number. *)
Definition ends_number (s : list ascii) : bool :=
  match s with
  | c :: _ => negb (is_digit c) && negb (starts_float s)
  | [] => true
  end.

Definition digits_of (d : Decimal.uint) : list ascii :=
  chars (NilEmpty.string_of_uint d).

(** Fuel that [parse_value] needs to read a value back *)
Fixpoint size (v : json) : nat :=
  match v with
  | JArray items => S (list_sum (map (fun x => S (size x)) items))
  | JObject fields => S (list_sum (map (fun kv => S (size (snd kv))) fields))
  | _ => 1
  end.

(** A character that can open a value *)
Definition opens_value (c : ascii) : bool :=
  negb (is_ws c) && negb (Ascii.eqb c "]") && negb (Ascii.eqb c "}").

Definition render_item (lvl : nat) (x : json) : list ascii :=
  nl (S lvl) ++ dumps_at (S lvl) x.

Definition render_member (lvl : nat) (kv : string * json) : list ascii :=
  nl (S lvl) ++ dumps_str (fst kv) ++ chars ": " ++ dumps_at (S lvl) (snd kv).

(** [parse_value] reads [v] back from its text, whatever follows it. *)
Definition round_trips (v : json) : Prop :=
  forall lvl rest fuel,
    (size v <= fuel)%nat -> ends_number rest = true ->
    parse_value fuel (dumps_at lvl v ++ rest) = Some (dedup v, rest).

End PyJson.

(** Python source text of a string: every ['] stands for a double quote. *)
Definition py (s : string) : string :=
  string_of_list_ascii
    (map (fun c => if Ascii.eqb c "'" then PyJson.dquote else c) (list_ascii_of_string s)).

Definition python_json : JsonCodec :=
  {| json_loads := PyJson.loads; json_dumps := PyJson.dumps |}.

Definition nlc : string := String "010" EmptyString.

(** ** Example data *)

Definition t0 : string := "2026-11-03T09:30:00".

(** The record that workspace alice holds in [store0] *)
Definition other_record : list (string * json) :=
  [("company_name", JString "Other"); ("company_context", JString "robots");
   ("last_updated", JString "2026-11-02T18:00:00")].

(** The files after workspace alice saved one record *)
Definition store0 : files :=
  snd (save_context (codec := python_json) "2026-11-02T18:00:00" "Other"
         (JObject [("company_name", JString "Other");
                   ("company_context", JString "robots")]) "alice" ∅).

(** A tenant document of alice that is not JSON *)
Definition store_broken : files :=
  {[ "user_contexts/contexts_2bd806c97f0e00af.json" := Text "{broken" ]}.

(** A tenant document of alice whose bytes are not text, such as ff fe *)
Definition store_undecodable : files :=
  {[ "user_contexts/contexts_2bd806c97f0e00af.json" := Undecodable ]}.

(** Two workspace keys with the same tenant key *)
Definition twin_a : string := "76b0e102fcaafa4c".
Definition twin_b : string := "0df465b338fee4ab".

(** A record whose created lies after the time of the save *)
Definition acme_record : list (string * json) :=
  [("company_name", JString "Acme Corp"); ("company_context", JString "rockets");
   ("created", JString "2031-01-01T00:00:00")].

(** The files after alice imported, under the name Acme, a document whose
    company_name is Acme Corporation *)
Definition store_renamed : files :=
  snd (import_context (codec := python_json) "2026-11-02T18:00:00"
         (py "{'company_name': 'Acme Corporation', 'company_context': 'rockets'}")
         "alice" (Some "Acme") ∅).

(** A later time of save *)
Definition t1 : string := "2026-11-03T10:00:00".

(** A tenant document without company_name *)
Definition anonymous_document : string := py "{'company_context': 'rockets'}".

(** The prompt with two entries that differ in the whitespace around them *)
Definition prompt_alice : key_prompt :=
  {| key_1 := " alice "; key_2 := "alice"; access_pressed := true |}.

(** The editor as a user filled it *)
Definition form_acme : editor_form :=
  {| company_name := " Acme Corp ";
     company_context_text := "rockets ";
     strong_yes_str := "SBIR, NSF,";
     strong_no_str := EmptyString;
     tech_sys_str := "zero-trust ,autonomous";
     socio_str := " " |}.

(** An environment whose service account is not JSON *)
Definition environ_broken : gmap string string :=
  {[ "GOOGLE_SERVICE_ACCOUNT_JSON" := "{broken" ]}.

(** * Properties *)

(** ** Test vectors of the hash and of the reference [json] module *)

Example sha256_constants :
  length Sha256.K = 64%nat
  ∧ nth 0 Sha256.K 0 = 0x428a2f98 ∧ nth 63 Sha256.K 0 = 0xc67178f2
  ∧ Sha256.ha Sha256.H0 = 0x6a09e667 ∧ Sha256.hh Sha256.H0 = 0x5be0cd19.
Proof. vm_compute. repeat split; reflexivity. Qed.

Example sha256_empty :
  Sha256.hexdigest EmptyString = "e3b0c44298fc1c149afbf4c8996fb92427ae41e4649b934ca495991b7852b855".
Proof. vm_compute. reflexivity. Qed.

Example sha256_abc :
  Sha256.hexdigest "abc" = "ba7816bf8f01cfea414140de5dae2223b00361a396177a9cb410ff61f20015ad".
Proof. vm_compute. reflexivity. Qed.

Example sha256_two_blocks :
  Sha256.hexdigest "abcdbcdecdefdefgefghfghighijhijkijkljklmklmnlmnomnopnopq"
  = "248d6a61d20638b8e5c026930c3e6039a33ce45964ff2167f6ecedd419db06c1".
Proof. vm_compute. reflexivity. Qed.


Example dumps_record :
  PyJson.dumps (JObject [("a", JArray [JInt 1; JString "x"]); ("b", JObject []);
                         ("c", JObject [("d", JNull)])])
  = py ("{" ++ nlc ++ "  'a': [" ++ nlc ++ "    1," ++ nlc ++ "    'x'" ++ nlc ++ "  ],"
        ++ nlc ++ "  'b': {}," ++ nlc ++ "  'c': {" ++ nlc ++ "    'd': null" ++ nlc
        ++ "  }" ++ nlc ++ "}").
Proof. vm_compute. reflexivity. Qed.

Example loads_record :
  PyJson.loads (py "{'company_name':'X'}") = Some (JObject [("company_name", JString "X")]).
Proof. vm_compute. reflexivity. Qed.

Example loads_not_json : PyJson.loads "not valid json" = None.
Proof. vm_compute. reflexivity. Qed.

Example loads_escapes :
  PyJson.loads (py "[ -12, 'a\u0041\n', {'k': true, 'k': [false, null]} ]")
  = Some (JArray [JInt (-12); JString ("aA" ++ nlc);
                  JObject [("k", JArray [JBool false; JNull])]]).
Proof. vm_compute. reflexivity. Qed.


(** ** Dictionaries *)

Section DictFacts.
Context {V : Type}.
Implicit Types (k : string) (v : V) (d : list (string * V)).

Lemma dict_get_set_eq k v d : dict_get k (dict_set k v d) = Some v.
Proof.
  induction d as [|[k' v'] d IH]; simpl.
  - by rewrite String.eqb_refl.
  - destruct (String.eqb_spec k k') as [->|Hne]; simpl.
    + by rewrite String.eqb_refl.
    + destruct (String.eqb_spec k k'); [done | apply IH].
Qed.

Lemma dict_get_set_ne k k' v d :
  k ≠ k' → dict_get k' (dict_set k v d) = dict_get k' d.
Proof.
  intros Hne. induction d as [|[k0 v0] d IH]; simpl.
  - destruct (String.eqb_spec k' k); [congruence | done].
  - destruct (String.eqb_spec k k0) as [->|Hk]; simpl.
    + destruct (String.eqb_spec k' k0); [congruence | done].
    + destruct (String.eqb_spec k' k0); [done | apply IH].
Qed.

Lemma dict_get_del_ne k k' d :
  k ≠ k' → dict_get k' (dict_del k d) = dict_get k' d.
Proof.
  intros Hne. induction d as [|[k0 v0] d IH]; simpl; [done|].
  destruct (String.eqb_spec k k0) as [->|Hk]; simpl.
  - destruct (String.eqb_spec k' k0); [congruence | done].
  - destruct (String.eqb_spec k' k0); [done | apply IH].
Qed.

Lemma dict_get_None k d : dict_get k d = None ↔ k ∉ map fst d.
Proof.
  induction d as [|[k0 v0] d IH]; simpl.
  - split; [intros _; apply not_elem_of_nil | done].
  - rewrite not_elem_of_cons.
    destruct (String.eqb_spec k k0) as [->|Hk]; [|tauto].
    split; [done | intros [[] _]; done].
Qed.

Lemma dict_mem_false k d : dict_mem k d = false ↔ k ∉ dict_keys d.
Proof.
  unfold dict_mem, dict_keys. rewrite <- dict_get_None.
  destruct (dict_get k d); split; done.
Qed.

Lemma dict_keys_del_subseteq k d : map fst (dict_del k d) ⊆ map fst d.
Proof.
  induction d as [|[k0 v0] d IH]; simpl; [done|].
  destruct (String.eqb k k0); simpl; intros x Hx.
  - by apply list_elem_of_further.
  - apply elem_of_cons in Hx as [->|Hx]; [apply list_elem_of_here|].
    apply list_elem_of_further. by apply IH.
Qed.

Lemma dict_keys_set k v d :
  map fst (dict_set k v d)
  = if dict_mem k d then map fst d else (map fst d ++ [k])%list.
Proof.
  unfold dict_mem. induction d as [|[k0 v0] d IH]; simpl; [done|].
  destruct (String.eqb_spec k k0) as [->|Hk]; simpl; [done|].
  rewrite IH. by destruct (dict_get k d).
Qed.

Lemma NoDup_keys_set k v d :
  NoDup (map fst d) → NoDup (map fst (dict_set k v d)).
Proof.
  intros Hd. rewrite dict_keys_set.
  destruct (dict_mem k d) eqn:Hm; [done|].
  apply dict_mem_false in Hm.
  apply NoDup_app. split; [done|]. split; [|apply NoDup_singleton].
  intros x Hx Hx'. apply list_elem_of_singleton in Hx'. by subst.
Qed.

Lemma NoDup_keys_del k d :
  NoDup (map fst d) → NoDup (map fst (dict_del k d)).
Proof.
  induction d as [|[k0 v0] d IH]; simpl; [done|].
  rewrite NoDup_cons. intros [Hk0 Hd].
  destruct (String.eqb k k0); simpl; [done|].
  apply NoDup_cons. split; [|by apply IH].
  intros Hin. apply Hk0. by apply (dict_keys_del_subseteq k).
Qed.

Lemma dict_get_del_eq k d :
  NoDup (map fst d) → dict_get k (dict_del k d) = None.
Proof.
  induction d as [|[k0 v0] d IH]; simpl; [done|].
  rewrite NoDup_cons. intros [Hk0 Hd].
  destruct (String.eqb_spec k k0) as [->|Hk]; simpl.
  - by apply dict_get_None.
  - destruct (String.eqb_spec k k0); [done | by apply IH].
Qed.

Lemma dict_get_elem_of k v d : dict_get k d = Some v → (k, v) ∈ d.
Proof.
  induction d as [|[k0 v0] d IH]; simpl; [done|].
  destruct (String.eqb_spec k k0) as [->|Hk].
  - intros [= ->]. apply list_elem_of_here.
  - intros Hg. apply list_elem_of_further. by apply IH.
Qed.

Lemma dict_set_elem_of k v d kv :
  kv ∈ dict_set k v d → kv = (k, v) ∨ kv ∈ d.
Proof.
  induction d as [|[k0 v0] d IH]; simpl.
  - intros Hin. apply list_elem_of_singleton in Hin. by left.
  - destruct (String.eqb k k0).
    + intros [->|Hin]%elem_of_cons; [by left|]. right. by apply list_elem_of_further.
    + intros [->|Hin]%elem_of_cons; [right; apply list_elem_of_here|].
      destruct (IH Hin) as [->|Hd]; [by left|]. right. by apply list_elem_of_further.
Qed.

Lemma dict_del_elem_of k d kv : kv ∈ dict_del k d → kv ∈ d.
Proof.
  induction d as [|[k0 v0] d IH]; simpl; [done|].
  destruct (String.eqb k k0).
  - intros Hin. by apply list_elem_of_further.
  - intros [->|Hin]%elem_of_cons; [apply list_elem_of_here|].
    apply list_elem_of_further. by apply IH.
Qed.
End DictFacts.

(** ** Distinct keys are kept by the dictionary operations *)

Lemma wf_json_object d :
  wf_json (JObject d) ↔ NoDup (map fst d) ∧ ∀ kv, kv ∈ d → wf_json (snd kv).
Proof.
  unfold wf_json. simpl. rewrite andb_true_iff, bool_decide_eq_true, forallb_forall.
  split; intros [Hk Hv]; (split; [done|]); intros kv Hin; apply Hv;
    by apply list_elem_of_In.
Qed.

Lemma wf_json_array l : wf_json (JArray l) ↔ ∀ x, x ∈ l → wf_json x.
Proof.
  unfold wf_json. simpl. rewrite forallb_forall.
  split; intros Hl x Hin; apply Hl; by apply list_elem_of_In.
Qed.

Lemma wf_json_empty : wf_json (JObject []).
Proof. reflexivity. Qed.

Lemma wf_dict_set k v d :
  wf_json (JObject d) → wf_json v → wf_json (JObject (dict_set k v d)).
Proof.
  rewrite !wf_json_object. intros [Hk Hd] Hv. split; [by apply NoDup_keys_set|].
  intros kv [->|Hin]%dict_set_elem_of; [done | by apply Hd].
Qed.

Lemma wf_dict_del k d :
  wf_json (JObject d) → wf_json (JObject (dict_del k d)).
Proof.
  rewrite !wf_json_object. intros [Hk Hd]. split; [by apply NoDup_keys_del|].
  intros kv Hin%dict_del_elem_of. by apply Hd.
Qed.

Lemma wf_dict_get k v d :
  wf_json (JObject d) → dict_get k d = Some v → wf_json v.
Proof.
  rewrite wf_json_object. intros [_ Hd] Hg%dict_get_elem_of. apply (Hd _ Hg).
Qed.

(** ** Induction on values, and reading back without repeated keys *)

Section JsonInd.
Variable P : json → Prop.
Hypothesis Hnull : P JNull.
Hypothesis Hbool : ∀ b, P (JBool b).
Hypothesis Hint : ∀ z, P (JInt z).
Hypothesis Hstr : ∀ s, P (JString s).
Hypothesis Harr : ∀ items, Forall P items → P (JArray items).
Hypothesis Hobj : ∀ fields, Forall (λ kv, P (snd kv)) fields → P (JObject fields).

Lemma json_ind : ∀ v, P v.
Proof.
  fix IH 1. intros [| b | z | s | items | fields].
  - apply Hnull.
  - apply Hbool.
  - apply Hint.
  - apply Hstr.
  - apply Harr. induction items as [|x items IHl]; constructor; [apply IH | apply IHl].
  - apply Hobj. induction fields as [|[k x] fields IHl]; constructor;
      [apply IH | apply IHl].
Qed.
End JsonInd.

Section ReadBack.
Local Open Scope list_scope.

Lemma dict_of_pairs_acc (acc l : list (string * json)) :
  NoDup (map fst (acc ++ l)) →
  fold_left (λ d kv, dict_set (fst kv) (snd kv) d) l acc = acc ++ l.
Proof.
  revert acc. induction l as [|[k v] l IH]; intros acc Hnd; simpl.
  - by rewrite app_nil_r.
  - assert (Hset : dict_set k v acc = acc ++ [(k, v)]).
    { rewrite map_app in Hnd. apply NoDup_app in Hnd as (_ & Hdisj & _).
      assert (Hk : k ∉ map fst acc).
      { intros Hin. apply (Hdisj k Hin). simpl. apply list_elem_of_here. }
      clear -Hk. induction acc as [|[k0 v0] acc IHa]; simpl; [done|].
      simpl in Hk. apply not_elem_of_cons in Hk as [Hne Hk].
      destruct (String.eqb_spec k k0); [done|]. by rewrite IHa. }
    rewrite Hset, IH; rewrite <- app_assoc; done.
Qed.

Lemma dict_of_pairs_nodup fields :
  NoDup (map fst fields) → dict_of_pairs fields = fields.
Proof. intros Hnd. by apply (dict_of_pairs_acc []). Qed.

Lemma wf_dict_of_pairs pairs :
  Forall (λ kv, wf_json (snd kv)) pairs → wf_json (JObject (dict_of_pairs pairs)).
Proof.
  unfold dict_of_pairs. generalize (@nil (string * json)) (wf_json_empty).
  intros acc Hacc Hall. revert acc Hacc.
  induction Hall as [|[k v] pairs Hv Hall IH]; intros acc Hacc; [done|].
  simpl. apply IH. by apply wf_dict_set.
Qed.

Lemma dedup_wf v : wf_json v → dedup v = v.
Proof.
  induction v as [| b | z | s | items IH | fields IH] using json_ind;
    intros Hwf; try done; simpl.
  - f_equal. rewrite wf_json_array in Hwf.
    induction IH as [|x items Hx _ IHl]; [done|]. simpl.
    rewrite Hx by apply Hwf, list_elem_of_here. f_equal.
    apply IHl. intros y Hy. by apply Hwf, list_elem_of_further.
  - f_equal. apply wf_json_object in Hwf as [Hnd Hwf].
    assert (Hmap : map (λ kv, (fst kv, dedup (snd kv))) fields = fields).
    { clear Hnd. induction IH as [|[k x] fields Hx _ IHl]; [done|]. simpl in *.
      rewrite Hx by apply (Hwf (k, x)), list_elem_of_here. f_equal.
      apply IHl. intros y Hy. by apply Hwf, list_elem_of_further. }
    rewrite Hmap. by apply dict_of_pairs_nodup.
Qed.

Lemma dedup_object fields :
  NoDup (map fst fields) →
  dedup (JObject fields) = JObject (map (λ kv, (fst kv, dedup (snd kv))) fields).
Proof.
  intros Hnd. simpl. f_equal. apply dict_of_pairs_nodup.
  by rewrite map_map, (map_ext _ fst).
Qed.

Lemma dict_get_dedup k fields :
  dict_get k (map (λ kv, (fst kv, dedup (snd kv))) fields)
  = dedup <$> dict_get k fields.
Proof.
  induction fields as [|[k' v] fields IH]; simpl; [done|].
  by destruct (String.eqb k k').
Qed.

Lemma wf_dedup v : wf_json (dedup v).
Proof.
  induction v as [| b | z | s | items IH | fields IH] using json_ind;
    try done; simpl.
  - apply wf_json_array. intros x (y & -> & Hy)%list_elem_of_fmap.
    rewrite Forall_forall in IH. by apply IH.
  - apply wf_dict_of_pairs. apply Forall_forall.
    intros kv (y & -> & Hy)%list_elem_of_fmap. simpl.
    rewrite Forall_forall in IH. by apply IH.
Qed.

End ReadBack.

(** ** The reference [json] module is lawful *)

Module PyJsonFacts.
Import PyJson.
Local Open Scope nat_scope.
Local Open Scope char_scope.
Local Open Scope list_scope.

(** *** White space *)

Lemma skip_ws_spaces k s : skip_ws (repeat " " k ++ s) = skip_ws s.
Proof. induction k as [|k IH]; [done | apply IH]. Qed.

Lemma skip_ws_nl lvl s : skip_ws (nl lvl ++ s) = skip_ws s.
Proof. apply (skip_ws_spaces (2 * lvl)). Qed.

Lemma skip_ws_head c s : is_ws c = false → skip_ws (c :: s) = c :: s.
Proof. intros Hc. simpl. by rewrite Hc. Qed.

Lemma parse_value_skip fuel s : parse_value fuel (skip_ws s) = parse_value fuel s.
Proof.
  assert (Hidem : skip_ws (skip_ws s) = skip_ws s).
  { induction s as [|c s IH]; [done|]. simpl. destruct (is_ws c) eqn:Hc; [done|].
    simpl. by rewrite Hc. }
  destruct fuel; simpl; [done|]. by rewrite Hidem.
Qed.

Lemma parse_value_nl fuel lvl s : parse_value fuel (nl lvl ++ s) = parse_value fuel s.
Proof.
  rewrite <- (parse_value_skip fuel (nl lvl ++ s)), skip_ws_nl.
  apply parse_value_skip.
Qed.

Lemma parse_value_space fuel s : parse_value fuel (" " :: s) = parse_value fuel s.
Proof. by destruct fuel. Qed.

(** *** Strings *)

Lemma parse_chars_escape c s :
  parse_chars (escape_char c ++ s) = cons_fst c (parse_chars s).
Proof. destruct c as [[] [] [] [] [] [] [] []]; reflexivity. Qed.

Lemma parse_chars_dumps cs rest :
  parse_chars (flat_map escape_char cs ++ dquote :: rest) = Some (cs, rest).
Proof.
  induction cs as [|c cs IH]; [reflexivity|].
  simpl flat_map. by rewrite <- app_assoc, parse_chars_escape, IH.
Qed.

Lemma chars_of_chars cs : chars (string_of_list_ascii cs) = cs.
Proof. apply list_ascii_of_string_of_list_ascii. Qed.

Lemma of_chars_chars s : string_of_list_ascii (chars s) = s.
Proof. apply string_of_list_ascii_of_string. Qed.

(** *** Integers *)

Lemma span_digits_of d rest :
  ends_number rest = true → span_digits (digits_of d ++ rest) = (digits_of d, rest).
Proof.
  intros Hrest. unfold digits_of.
  induction d as [| d IH | d IH | d IH | d IH | d IH | d IH | d IH | d IH | d IH | d IH];
    simpl; try (rewrite IH; reflexivity).
  destruct rest as [|c rest]; [done|]. simpl in *.
  by destruct (is_digit c).
Qed.

Lemma digits_of_head d :
  d ≠ Decimal.Nil → ∃ c tl, digits_of d = c :: tl ∧ is_digit c = true.
Proof. destruct d; [done|..]; intros _; by eexists _, _. Qed.

Lemma unorm_to_uint n : Decimal.unorm (N.to_uint n) = N.to_uint n.
Proof.
  rewrite <- (DecimalN.Unsigned.of_to n) at 2.
  by rewrite DecimalN.Unsigned.to_of.
Qed.

Lemma to_uint_nonnil n : N.to_uint n ≠ Decimal.Nil.
Proof. destruct n; [done|]. apply DecimalPos.Unsigned.to_uint_nonnil. Qed.

Lemma str_of_int_chars z :
  chars (str_of_int z)
  = (if (z <? 0)%Z then ["-"] else []) ++ digits_of (N.to_uint (Z.abs_N z)).
Proof.
  unfold str_of_int, digits_of. destruct z as [|p|p]; simpl; [done|..];
    unfold NilZero.string_of_uint;
    pose proof (DecimalPos.Unsigned.to_uint_nonnil p);
    by destruct (Pos.to_uint p).
Qed.

Lemma parse_digits d rest :
  Decimal.unorm d = d → ends_number rest = true →
  span_digits (digits_of d ++ rest) = (digits_of d, rest)
  ∧ NilEmpty.uint_of_string (string_of_list_ascii (digits_of d)) = Some d
  ∧ Decimal.uint_beq (Decimal.unorm d) d && negb (starts_float rest) = true.
Proof.
  intros Hd Hrest. split; [by apply span_digits_of|]. split.
  - unfold digits_of. by rewrite of_chars_chars, NilEmpty.usu.
  - rewrite Hd, Decimal.internal_uint_dec_lb by done.
    destruct rest as [|c rest]; [done|]. unfold ends_number in Hrest.
    apply andb_prop in Hrest as [_ Hf]. by rewrite Hf.
Qed.

Lemma parse_int_dumps z rest :
  ends_number rest = true →
  parse_int (chars (str_of_int z) ++ rest) = Some (z, rest).
Proof.
  intros Hrest. rewrite str_of_int_chars.
  set (d := N.to_uint (Z.abs_N z)).
  destruct (parse_digits d rest (unorm_to_uint _) Hrest) as (Hspan & Hd & Hok).
  assert (Hval : Z.of_N (N.of_uint d) = Z.abs z).
  { unfold d. rewrite DecimalN.Unsigned.of_to. lia. }
  destruct (digits_of_head d (to_uint_nonnil _)) as (c & tl & Hc & Hdig).
  unfold parse_int. destruct (Z.ltb_spec z 0) as [Hneg|Hpos].
  - simpl. rewrite Hspan, Hd, Hok, Hval. f_equal. f_equal. lia.
  - rewrite Hc in *. simpl app. cbv beta iota.
    assert (Ascii.eqb c "-" = false) as ->.
    { destruct (Ascii.eqb_spec c "-") as [->|]; done. }
    change (c :: tl ++ rest) with ((c :: tl) ++ rest).
    rewrite Hspan, Hd, Hok, Hval. f_equal. f_equal. lia.
Qed.


(** *** Values *)

Lemma parse_value_number f c r :
  is_digit c || Ascii.eqb c "-" = true →
  parse_value (S f) (c :: r)
  = match parse_int (c :: r) with
    | Some (z, r') => Some (JInt z, r')
    | None => None
    end.
Proof.
  intros Hc. destruct c as [[] [] [] [] [] [] [] []]; try discriminate Hc; reflexivity.
Qed.

Lemma number_opens_value c :
  is_digit c || Ascii.eqb c "-" = true → opens_value c = true.
Proof.
  intros Hc. destruct c as [[] [] [] [] [] [] [] []]; try discriminate Hc; reflexivity.
Qed.

Lemma str_of_int_head z :
  ∃ c tl, chars (str_of_int z) = c :: tl ∧ is_digit c || Ascii.eqb c "-" = true.
Proof.
  rewrite str_of_int_chars.
  destruct (digits_of_head (N.to_uint (Z.abs_N z)) (to_uint_nonnil _))
    as (c & tl & -> & Hc).
  destruct (z <? 0)%Z; simpl; eexists _, _; (split; [done|]); [done|].
  by rewrite Hc.
Qed.

Lemma dumps_at_head lvl v :
  ∃ c tl, dumps_at lvl v = c :: tl ∧ opens_value c = true.
Proof.
  destruct v as [| [] | z | s | [|x items] | [|kv fields]];
    try (by eexists _, _).
  destruct (str_of_int_head z) as (c & tl & Hz & Hc).
  exists c, tl. split; [done | by apply number_opens_value].
Qed.

Lemma ends_number_nl lvl s : ends_number (nl lvl ++ s) = true.
Proof. reflexivity. Qed.

Lemma parse_elems_dumps lvl items rest fuel :
  items ≠ [] → Forall round_trips items →
  list_sum (map (λ x, S (size x)) items) ≤ fuel →
  parse_elems fuel (join [","] (map (render_item lvl) items) ++ nl lvl ++ "]" :: rest)
  = Some (map dedup items, rest).
Proof.
  intros Hne Hall. revert fuel Hne.
  induction Hall as [|x items Hx Hall IH]; intros fuel Hne Hfuel; [done|].
  simpl in Hfuel. destruct fuel as [|f]; [lia|].
  destruct items as [|y items].
  - simpl join. unfold render_item at 1. cbn [parse_elems].
    rewrite <- app_assoc, parse_value_nl, Hx by (done || lia).
    by rewrite skip_ws_nl.
  - change (join [","] (map (render_item lvl) (x :: y :: items)))
      with (render_item lvl x ++ [","] ++ join [","] (map (render_item lvl) (y :: items))).
    unfold render_item at 1. cbn [parse_elems].
    rewrite <- !app_assoc, parse_value_nl, Hx by (done || lia).
    simpl. rewrite IH; [done | done | simpl in *; lia].
Qed.


Lemma parse_members_dumps lvl fields rest fuel :
  fields ≠ [] → Forall (λ kv, round_trips (snd kv)) fields →
  list_sum (map (λ kv, S (size (snd kv))) fields) ≤ fuel →
  parse_members fuel
    (join [","] (map (render_member lvl) fields) ++ nl lvl ++ "}" :: rest)
  = Some (map (λ kv, (fst kv, dedup (snd kv))) fields, rest).
Proof.
  intros Hne Hall. revert fuel Hne.
  induction Hall as [|[k x] fields Hx Hall IH]; intros fuel Hne Hfuel; [done|].
  simpl in Hfuel, Hx. destruct fuel as [|f]; [lia|].
  assert (Hkey : ∀ s, parse_members (S f) (render_member lvl (k, x) ++ s)
                      = match parse_value f (dumps_at (S lvl) x ++ s) with
                        | Some (v, r3) =>
                            match skip_ws r3 with
                            | d :: r4 =>
                                if Ascii.eqb d "," then
                                  cons_fst (k, v) (parse_members f r4)
                                else if Ascii.eqb d "}" then Some ([(k, v)], r4)
                                else None
                            | [] => None
                            end
                        | None => None
                        end).
  { intros s. unfold render_member, dumps_str. cbn [parse_members fst snd].
    rewrite <- !app_assoc, skip_ws_nl. simpl skip_ws. simpl Ascii.eqb. cbv iota.
    rewrite <- !app_assoc. simpl app at 2.
    rewrite parse_chars_dumps. simpl.
    rewrite parse_value_space, of_chars_chars. done. }
  destruct fields as [|kv fields].
  - simpl join. rewrite Hkey, Hx by (done || lia).
    by rewrite skip_ws_nl.
  - change (join [","] (map (render_member lvl) ((k, x) :: kv :: fields)))
      with (render_member lvl (k, x) ++ [","]
            ++ join [","] (map (render_member lvl) (kv :: fields))).
    rewrite <- !app_assoc, Hkey, Hx by (done || lia).
    simpl. rewrite IH; [done | done | simpl in *; lia].
Qed.

Lemma parse_value_array f s :
  parse_value (S f) ("[" :: s)
  = match skip_ws s with
    | c :: r =>
        if Ascii.eqb c "]" then Some (JArray [], r)
        else match parse_elems f s with
             | Some (items, r') => Some (JArray items, r')
             | None => None
             end
    | [] => None
    end.
Proof. reflexivity. Qed.

Lemma parse_value_object f s :
  parse_value (S f) ("{" :: s)
  = match skip_ws s with
    | c :: r =>
        if Ascii.eqb c "}" then Some (JObject [], r)
        else match parse_members f s with
             | Some (pairs, r') => Some (JObject (dict_of_pairs pairs), r')
             | None => None
             end
    | [] => None
    end.
Proof. reflexivity. Qed.

Lemma opens_value_spec c :
  opens_value c = true →
  is_ws c = false ∧ Ascii.eqb c "]" = false ∧ Ascii.eqb c "}" = false.
Proof.
  unfold opens_value. rewrite !andb_true_iff, !negb_true_iff. tauto.
Qed.

Lemma parse_value_dumps v : round_trips v.
Proof.
  induction v as [| b | z | s | items IH | fields IH] using json_ind;
    intros lvl rest fuel Hfuel Hrest;
    (destruct fuel as [|f]; [simpl in Hfuel; lia|]).
  - reflexivity.
  - by destruct b.
  - simpl dumps_at.
    destruct (str_of_int_head z) as (c & tl & Hz & Hc).
    pose proof (parse_int_dumps z rest Hrest) as Hp.
    rewrite Hz in *. simpl app in *.
    by rewrite parse_value_number, Hp.
  - simpl dumps_at. unfold dumps_str. simpl.
    rewrite <- app_assoc. simpl app.
    by rewrite parse_chars_dumps, of_chars_chars.
  - destruct items as [|x items]; [reflexivity|].
    cbn [dumps_at app]. rewrite <- !app_assoc.
    change (λ x0, nl (S lvl) ++ dumps_at (S lvl) x0) with (render_item lvl).
    change (["]"] ++ rest) with ("]" :: rest).
    rewrite parse_value_array.
    rewrite (parse_elems_dumps lvl (x :: items) rest f); try done.
    + destruct (dumps_at_head (S lvl) x) as (c & tl & Hx & Hc).
      apply opens_value_spec in Hc as (Hws & Hc & _).
      destruct items; cbn [join map]; unfold render_item at 1;
        rewrite <- !app_assoc, skip_ws_nl, Hx; simpl app;
        rewrite skip_ws_head by done; by rewrite Hc.
    + simpl in Hfuel |- *. lia.
  - destruct fields as [|[k x] fields]; [reflexivity|].
    cbn [dumps_at app]. rewrite <- !app_assoc.
    change (λ kv, nl (S lvl) ++ dumps_str kv.1 ++ chars ": " ++ dumps_at (S lvl) kv.2)
      with (render_member lvl).
    change (["}"] ++ rest) with ("}" :: rest).
    rewrite parse_value_object.
    rewrite (parse_members_dumps lvl ((k, x) :: fields) rest f); try done.
    + destruct fields; cbn [join map]; unfold render_member at 1;
        rewrite <- !app_assoc, skip_ws_nl; reflexivity.
    + simpl in Hfuel |- *. lia.
Qed.


Lemma length_join_ge {A} (f : A → nat) (g : A → list ascii) (l : list A) :
  (∀ x, x ∈ l → f x ≤ length (g x)) →
  list_sum (map f l) ≤ length (join [","] (map g l)).
Proof.
  induction l as [|x l IH]; intros Hl; [done|].
  assert (Hx : f x ≤ length (g x)) by apply Hl, list_elem_of_here.
  assert (IH' : list_sum (map f l) ≤ length (join [","] (map g l))).
  { apply IH. intros y Hy. by apply Hl, list_elem_of_further. }
  destruct l as [|y l]; [simpl; lia|].
  change (join [","] (map g (x :: y :: l)))
    with (g x ++ [","] ++ join [","] (map g (y :: l))).
  change (list_sum (map f (x :: y :: l)))
    with (f x + list_sum (map f (y :: l)))%nat.
  rewrite !length_app. lia.
Qed.

Lemma size_le_length v lvl : size v ≤ length (dumps_at lvl v).
Proof.
  revert lvl.
  induction v as [| b | z | s | items IH | fields IH] using json_ind; intros lvl.
  - simpl. lia.
  - destruct b; simpl; lia.
  - destruct (str_of_int_head z) as (c & tl & Hz & _). simpl. rewrite Hz. simpl. lia.
  - simpl. lia.
  - destruct items as [|x items]; [simpl; lia|].
    cbn [dumps_at size]. cbn [length]. rewrite length_app. apply le_n_S.
    etrans; [|apply Nat.le_add_r].
    apply length_join_ge. intros y Hy. rewrite length_app. simpl.
    rewrite Forall_forall in IH. specialize (IH y Hy (S lvl)). lia.
  - destruct fields as [|kv fields]; [simpl; lia|].
    cbn [dumps_at size]. cbn [length]. rewrite length_app. apply le_n_S.
    etrans; [|apply Nat.le_add_r].
    apply length_join_ge. intros y Hy. rewrite !length_app. simpl.
    rewrite Forall_forall in IH. specialize (IH y Hy (S lvl)). lia.
Qed.

Theorem loads_dumps_ok v : loads (dumps v) = Some (dedup v).
Proof.
  unfold loads, dumps. rewrite chars_of_chars.
  rewrite <- (app_nil_r (dumps_at 0 v)) at 2.
  rewrite (parse_value_dumps v); [done | | done].
  pose proof (size_le_length v 0). lia.
Qed.

(** A parsed document has distinct keys at every depth. *)

Lemma wf_json_array_Forall l : Forall wf_json l → wf_json (JArray l).
Proof. rewrite Forall_forall. apply wf_json_array. Qed.

Lemma cons_fst_Some {A B} (a : A) (r : option (list A * B)) l b :
  cons_fst a r = Some (l, b) → ∃ l', r = Some (l', b) ∧ l = a :: l'.
Proof. destruct r as [[l' b']|]; [|done]. intros [= <- <-]. by eexists. Qed.

Lemma parse_wf fuel :
  (∀ s v r, parse_value fuel s = Some (v, r) → wf_json v)
  ∧ (∀ s l r, parse_elems fuel s = Some (l, r) → Forall wf_json l)
  ∧ (∀ s l r, parse_members fuel s = Some (l, r) →
       Forall (λ kv, wf_json (snd kv)) l).
Proof.
  induction fuel as [|f (IHv & IHe & IHm)]; [done|].
  split; [|split].
  - intros s v r. cbn [parse_value]. intros Hp.
    repeat (case_match; try done); simplify_eq; try done.
    + apply wf_json_array_Forall. eauto.
    + apply wf_dict_of_pairs. eauto.
  - intros s l r. cbn [parse_elems]. intros Hp.
    repeat (case_match; try done); simplify_eq.
    + apply cons_fst_Some in Hp as (l' & Hl & ->). constructor; eauto.
    + constructor; eauto.
  - intros s l r. cbn [parse_members]. intros Hp.
    repeat (case_match; try done); simplify_eq.
    + apply cons_fst_Some in Hp as (l' & Hl & ->). constructor; simpl; eauto.
    + constructor; simpl; eauto.
Qed.

Theorem loads_wf_ok s v : loads s = Some v → wf_json v.
Proof.
  unfold loads. intros Hl. repeat (case_match; try done). simplify_eq.
  by eapply parse_wf.
Qed.

Lemma python_json_laws : JsonLaws python_json.
Proof. split; [apply loads_dumps_ok | apply loads_wf_ok]. Qed.

End PyJsonFacts.

(** ** The repository over any lawful [json] module *)

Section Repository.
Context {C : JsonCodec} {L : JsonLaws C}.
Implicit Types (fs : files) (w n m now : string).

Lemma loads_dumps v : wf_json v → json_loads (json_dumps v) = Some v.
Proof. intros Hv. by rewrite loads_dumps_dedup, dedup_wf. Qed.

Lemma get_user_file_path_spec w fs :
  get_user_file_path w fs = (Ok (tenant_path w), fs).
Proof. reflexivity. Qed.

Lemma load_contexts_empty_key fs :
  load_contexts EmptyString fs = (Ok (JObject []), fs).
Proof. reflexivity. Qed.

Lemma load_contexts_spec w fs :
  w ≠ EmptyString → load_contexts w fs = (tenant_doc fs w, fs).
Proof.
  intros Hw. unfold load_contexts, tenant_doc.
  destruct (String.eqb_spec w EmptyString) as [|_]; [done|].
  unfold try_except, bind, get_user_file_path, os_path_exists, read_text,
    json_load, ret, raise. fold (tenant_path w).
  destruct (fs !! tenant_path w) as [[text|]|] eqn:Hf; simpl.
  - rewrite Hf. by destruct (json_loads text).
  - by rewrite Hf.
  - done.
Qed.

(** A tenant document that does not decode: the error is not one that
    [load_contexts] catches. *)
Lemma tenant_doc_undecodable fs w e :
  tenant_doc fs w = Raise e →
  e = UnicodeDecodeError ∧ fs !! tenant_path w = Some Undecodable.
Proof.
  unfold tenant_doc. destruct (fs !! tenant_path w) as [[text|]|]; try done.
  by intros [= <-].
Qed.

Lemma tenant_doc_wf fs w v : tenant_doc fs w = Ok v → wf_json v.
Proof.
  unfold tenant_doc. destruct (fs !! tenant_path w) as [[text|]|]; try done.
  - destruct (json_loads text) eqn:Hl; intros [= <-]; [|done].
    by apply loads_wf in Hl.
  - by intros [= <-].
Qed.

Lemma tenant_doc_written fs w v :
  wf_json v → tenant_doc (<[tenant_path w := Text (json_dumps v)]> fs) w = Ok v.
Proof.
  intros Hv. unfold tenant_doc. rewrite lookup_insert_eq.
  by rewrite loads_dumps.
Qed.

Lemma tenant_doc_written_any fs w v :
  tenant_doc (<[tenant_path w := Text (json_dumps v)]> fs) w = Ok (dedup v).
Proof. unfold tenant_doc. by rewrite lookup_insert_eq, loads_dumps_dedup. Qed.

Lemma save_contexts_spec v w fs :
  w ≠ EmptyString →
  save_contexts v w fs = (Ok tt, <[tenant_path w := Text (json_dumps v)]> fs).
Proof.
  intros Hw. unfold save_contexts.
  by destruct (String.eqb_spec w EmptyString) as [|_].
Qed.

Lemma get_context_spec n w fs :
  w ≠ EmptyString →
  get_context n w fs
  = match tenant_doc fs w with
    | Ok contexts => py_get contexts n JNull fs
    | Raise e => (Raise e, fs)
    end.
Proof.
  intros Hw. unfold get_context, bind. by rewrite load_contexts_spec.
Qed.

Lemma get_context_names_spec w fs :
  w ≠ EmptyString →
  get_context_names w fs
  = match tenant_doc fs w with
    | Ok contexts => py_keys contexts fs
    | Raise e => (Raise e, fs)
    end.
Proof.
  intros Hw. unfold get_context_names, bind. by rewrite load_contexts_spec.
Qed.

(** [save_context_as] with a [str] name on a record and a collection that
    are both mappings: one write of the updated collection. *)
Lemma save_context_spec now n r kvs w fs :
  w ≠ EmptyString → tenant_doc fs w = Ok (JObject kvs) →
  save_context now n (JObject r) w fs
  = (Ok tt,
     <[tenant_path w :=
         Text (json_dumps (JObject (dict_set n
           (JObject (dict_set "last_updated" (JString now) r)) kvs)))]> fs).
Proof.
  intros Hw Hdoc. unfold save_context, save_context_as.
  destruct (String.eqb_spec w EmptyString) as [|_]; [done|].
  unfold bind. rewrite load_contexts_spec, Hdoc by done. simpl.
  by rewrite save_contexts_spec.
Qed.

(** In every other case [save_context] raises before it writes. *)
Lemma save_context_raises now n r w fs :
  w ≠ EmptyString →
  (∀ fields, r ≠ JObject fields) ∨ (∀ kvs, tenant_doc fs w ≠ Ok (JObject kvs)) →
  save_context now n r w fs = (Raise (load_error (tenant_doc fs w)), fs).
Proof.
  intros Hw Hcase. unfold save_context, save_context_as.
  destruct (String.eqb_spec w EmptyString) as [|_]; [done|].
  unfold bind. rewrite load_contexts_spec by done.
  destruct (tenant_doc fs w) as [contexts|e]; [|done].
  destruct r as [| | | | |fields]; try reflexivity.
  destruct Hcase as [Hr|Hd]; [by destruct (Hr fields)|].
  simpl. destruct contexts as [| | | | |kvs]; try reflexivity.
  by destruct (Hd kvs).
Qed.
Lemma delete_context_empty_key n fs :
  delete_context n EmptyString fs = (Ok tt, fs).
Proof. reflexivity. Qed.

(** [delete_context] on a collection that holds the name: one write of the
    reduced collection. *)
Lemma delete_context_present n kvs w fs :
  w ≠ EmptyString → tenant_doc fs w = Ok (JObject kvs) → dict_mem n kvs = true →
  delete_context n w fs
  = (Ok tt, <[tenant_path w := Text (json_dumps (JObject (dict_del n kvs)))]> fs).
Proof.
  intros Hw Hdoc Hmem. unfold delete_context.
  destruct (String.eqb_spec w EmptyString) as [|_]; [done|].
  unfold bind. rewrite load_contexts_spec, Hdoc by done. simpl.
  rewrite Hmem. simpl. by rewrite save_contexts_spec.
Qed.

(** In every other case it leaves the files as they are. *)
Lemma delete_context_other n w fs :
  w ≠ EmptyString →
  (∀ kvs, tenant_doc fs w = Ok (JObject kvs) → dict_mem n kvs = false) →
  snd (delete_context n w fs) = fs.
Proof.
  intros Hw Hcase. unfold delete_context.
  destruct (String.eqb_spec w EmptyString) as [|_]; [done|].
  unfold bind. rewrite load_contexts_spec by done.
  destruct (tenant_doc fs w) as [[| b | z | s | items | kvs]|e]; simpl; try done.
  - by destruct (is_substring n s).
  - by destruct (existsb _ items).
  - by rewrite (Hcase kvs eq_refl).
Qed.

Lemma delete_context_absent n kvs w fs :
  w ≠ EmptyString → tenant_doc fs w = Ok (JObject kvs) → dict_mem n kvs = false →
  delete_context n w fs = (Ok tt, fs).
Proof.
  intros Hw Hdoc Hmem. unfold delete_context.
  destruct (String.eqb_spec w EmptyString) as [|_]; [done|].
  unfold bind. rewrite load_contexts_spec, Hdoc by done. simpl.
  by rewrite Hmem.
Qed.

(** Writing the tenant document of [w] decides what [w] loads next. *)
Lemma tenant_doc_object_wf fs w kvs :
  tenant_doc fs w = Ok (JObject kvs) → wf_json (JObject kvs).
Proof. apply tenant_doc_wf. Qed.


Lemma import_context_empty_key now text name fs :
  import_context now text EmptyString name fs = (Ok false, fs).
Proof. reflexivity. Qed.

(** A document that is a mapping with a [str] company_name, imported
    without an explicit name into a collection that is a mapping. *)
Lemma import_context_object now text d x kvs w fs :
  w ≠ EmptyString → json_loads text = Some (JObject d) →
  dict_get "company_name" d = Some (JString x) →
  tenant_doc fs w = Ok (JObject kvs) →
  import_context now text w None fs
  = (Ok true,
     <[tenant_path w :=
         Text (json_dumps (JObject (dict_set x
           (JObject (dict_set "last_updated" (JString now) d)) kvs)))]> fs).
Proof.
  intros Hw Hload Hname Hdoc. unfold import_context.
  destruct (String.eqb_spec w EmptyString) as [|_]; [done|].
  unfold try_except, bind at 1, json_load. rewrite Hload. simpl.
  unfold bind at 1. simpl. rewrite Hname.
  unfold bind at 1. fold (save_context now x (JObject d) w).
  by rewrite (save_context_spec now x d kvs).
Qed.

(** C4. For a non-empty workspace key and a text that [json.loads]
    rejects, [import_context] returns [False] and writes nothing: the
    files are the same, so [get_context_names] and every [get_context]
    answer as before the call. *)
Theorem import_context_malformed now text w name fs :
  w ≠ EmptyString → json_loads text = None →
  import_context now text w name fs = (Ok false, fs)
  ∧ get_context_names w (snd (import_context now text w name fs))
    = get_context_names w fs
  ∧ ∀ n, get_context n w (snd (import_context now text w name fs))
         = get_context n w fs.
Proof.
  intros Hw Hload.
  assert (Himp : import_context now text w name fs = (Ok false, fs)).
  { unfold import_context.
    destruct (String.eqb_spec w EmptyString) as [|_]; [done|].
    unfold try_except, bind, json_load. by rewrite Hload. }
  rewrite Himp. done.
Qed.

(** When the tenant document of a non-empty workspace key holds a text
    that [json.load] rejects, [load_contexts] catches the
    [JSONDecodeError] and returns the empty mapping; [get_context_names]
    is then the empty list and [get_context] is [None] for every name. *)
Theorem load_contexts_malformed_document w path text fs :
  w ≠ EmptyString →
  fst (get_user_file_path w fs) = Ok path →
  fs !! path = Some (Text text) → json_loads text = None →
  load_contexts w fs = (Ok (JObject []), fs)
  ∧ get_context_names w fs = (Ok [], fs)
  ∧ ∀ n, get_context n w fs = (Ok JNull, fs).
Proof.
  intros Hw Hpath Hfile Hload.
  rewrite get_user_file_path_spec in Hpath. injection Hpath as <-.
  assert (Hdoc : tenant_doc fs w = Ok (JObject [])).
  { unfold tenant_doc. by rewrite Hfile, Hload. }
  rewrite load_contexts_spec, get_context_names_spec, Hdoc by done.
  split; [done|]. split; [done|]. intros n.
  by rewrite get_context_spec, Hdoc.
Qed.

(** C6. When the tenant document of a non-empty workspace key holds
    bytes that do not decode as text, [load_contexts] raises
    [UnicodeDecodeError], which its except clause does not list, where
    the claim has it return the empty mapping; [get_context_names] and
    [get_context] raise it too, and so does [save_context], which
    therefore does not replace the document.  Nothing is written. *)
Theorem load_contexts_undecodable_document w path fs :
  w ≠ EmptyString →
  fst (get_user_file_path w fs) = Ok path →
  fs !! path = Some Undecodable →
  load_contexts w fs = (Raise UnicodeDecodeError, fs)
  ∧ get_context_names w fs = (Raise UnicodeDecodeError, fs)
  ∧ (∀ n, get_context n w fs = (Raise UnicodeDecodeError, fs))
  ∧ ∀ now n r, save_context now n r w fs = (Raise UnicodeDecodeError, fs).
Proof.
  intros Hw Hpath Hfile.
  rewrite get_user_file_path_spec in Hpath. injection Hpath as <-.
  assert (Hdoc : tenant_doc fs w = Raise UnicodeDecodeError).
  { unfold tenant_doc. by rewrite Hfile. }
  rewrite load_contexts_spec, get_context_names_spec, Hdoc by done.
  split; [done|]. split; [done|]. split.
  - intros n. by rewrite get_context_spec, Hdoc.
  - intros now n r. rewrite (save_context_raises now n r w fs), Hdoc; [done..|].
    right. intros kvs. by rewrite Hdoc.
Qed.

(** C10. For a non-empty workspace key and a text that parses to a value
    that is not a mapping, [import_context] returns no boolean: it raises,
    and the exception is not caught.  Without a name the [get] attribute
    lookup on the parsed value raises [AttributeError]; with a name the
    item assignment in [save_context] raises [TypeError], unless the
    [load_contexts] before it has raised already, on a tenant document
    that does not decode.  Nothing has been written by then. *)
Theorem import_context_not_a_mapping now text v w name fs :
  w ≠ EmptyString → json_loads text = Some v →
  (∀ fields, v ≠ JObject fields) →
  import_context now text w name fs
  = (Raise (if name_given name then load_error (fst (load_contexts w fs))
            else AttributeError), fs).
Proof.
  intros Hw Hload Hv. unfold import_context.
  destruct (String.eqb_spec w EmptyString) as [|_]; [done|].
  unfold try_except, bind at 1, json_load. rewrite Hload. simpl.
  unfold bind at 1.
  assert (Hget : ∀ k dflt, py_get v k dflt fs = (Raise AttributeError, fs)).
  { intros k dflt. destruct v; try done. by destruct (Hv fields). }
  assert (Hsave : ∀ n, save_context_as now (JString n) v w fs
                       = (Raise (load_error (fst (load_contexts w fs))), fs)).
  { intros n. rewrite load_contexts_spec by done.
    by apply (save_context_raises now n v w fs); [|left]. }
  destruct name as [n|]; simpl.
  - destruct (String.eqb n EmptyString); simpl.
    + by rewrite Hget.
    + unfold bind. rewrite Hsave, load_contexts_spec by done. simpl.
      destruct (tenant_doc fs w) as [d|e] eqn:Hd; [done|].
      by apply tenant_doc_undecodable in Hd as [-> _].
  - by rewrite Hget.
Qed.


Lemma py_get_object kvs n dflt fs :
  py_get (JObject kvs) n dflt fs
  = (Ok (match dict_get n kvs with Some v => v | None => dflt end), fs).
Proof. reflexivity. Qed.

(** C8. For a non-empty workspace key and names m ≠ n, [save_context]
    under n and [delete_context] of n leave what [get_context] returns for
    m as it was. *)
Theorem save_delete_frame now n m r w fs :
  w ≠ EmptyString → m ≠ n →
  fst (get_context m w (snd (save_context now n r w fs)))
  = fst (get_context m w fs)
  ∧ fst (get_context m w (snd (delete_context n w fs)))
    = fst (get_context m w fs).
Proof.
  intros Hw Hmn. split.
  - destruct (tenant_doc fs w) as [[| | | | |kvs]|e] eqn:Hdoc;
      try (rewrite save_context_raises; [done | done | right; congruence]).
    destruct r as [| | | | |d];
      try (rewrite save_context_raises; [done | done | left; congruence]).
    rewrite (save_context_spec now n d kvs) by done. simpl.
    pose proof (tenant_doc_object_wf _ _ _ Hdoc) as Hwf.
    rewrite !get_context_spec by done. rewrite tenant_doc_written_any, Hdoc.
    rewrite dedup_object
      by (apply NoDup_keys_set; by apply wf_json_object in Hwf as [? _]).
    rewrite !py_get_object, dict_get_dedup, dict_get_set_ne by done. simpl.
    destruct (dict_get m kvs) as [v|] eqn:Hv; [simpl|done].
    by rewrite (dedup_wf v) by (by eapply wf_dict_get).
  - destruct (tenant_doc fs w) as [[| | | | |kvs]|e] eqn:Hdoc;
      try (rewrite delete_context_other; [done | done | congruence]).
    destruct (dict_mem n kvs) eqn:Hmem.
    + rewrite (delete_context_present n kvs) by done. simpl.
      rewrite !get_context_spec by done. rewrite tenant_doc_written, Hdoc.
      * rewrite !py_get_object. simpl. by rewrite dict_get_del_ne.
      * apply wf_dict_del. by eapply tenant_doc_object_wf.
    + by rewrite (delete_context_absent n kvs).
Qed.

(** C9. [delete_context] is a no-op that raises nothing when the
    workspace key is empty or the name is not among the names of the
    tenant's collection; and deleting a name again, right after deleting
    it, has the outcome of the first call and changes nothing more. *)
Theorem delete_context_idempotent n w fs :
  ((w = EmptyString
    ∨ ∃ names, fst (get_context_names w fs) = Ok names ∧ n ∉ names) →
   delete_context n w fs = (Ok tt, fs))
  ∧ delete_context n w (snd (delete_context n w fs)) = delete_context n w fs.
Proof.
  split.
  - intros [->|(names & Hnames & Hn)]; [done|].
    destruct (String.eqb_spec w EmptyString) as [->|Hw]; [done|].
    rewrite get_context_names_spec in Hnames by done.
    destruct (tenant_doc fs w) as [[| | | | |kvs]|e] eqn:Hdoc; try done.
    injection Hnames as <-.
    apply (delete_context_absent n kvs); [done | done |].
    by apply dict_mem_false.
  - destruct (String.eqb_spec w EmptyString) as [->|Hw]; [done|].
    destruct (tenant_doc fs w) as [[| | | | |kvs]|e] eqn:Hdoc;
      try (rewrite (delete_context_other n w fs); [done | done | congruence]).
    destruct (dict_mem n kvs) eqn:Hmem.
    + pose proof (tenant_doc_object_wf _ _ _ Hdoc) as Hwf.
      rewrite (delete_context_present n kvs w fs) by done. simpl.
      apply (delete_context_absent n (dict_del n kvs)); [done | |].
      * apply tenant_doc_written. by apply wf_dict_del.
      * unfold dict_mem. rewrite dict_get_del_eq; [done|].
        by destruct (proj1 (wf_json_object _) Hwf) as [Hnd _].
    + rewrite (delete_context_absent n kvs w fs) by done. simpl.
      by apply (delete_context_absent n kvs).
Qed.

Lemma load_contexts_object w kvs fs :
  w ≠ EmptyString → fst (load_contexts w fs) = Ok (JObject kvs) →
  tenant_doc fs w = Ok (JObject kvs).
Proof. intros Hw. rewrite load_contexts_spec by done. by intros [= ->]. Qed.

(** C3 (amended). For a non-empty workspace key whose collection is a
    mapping, [save_context] of a record under a name and then [get_context]
    of that name returns the record with last_updated set to the time of
    the save: every other field is as in the record, and last_updated is
    not before the record's created whenever created is a timestamp not
    later than the time of the save. *)
Theorem save_then_get now n r kvs w fs :
  w ≠ EmptyString → wf_json (JObject r) →
  fst (load_contexts w fs) = Ok (JObject kvs) →
  ∃ fs' r',
    save_context now n (JObject r) w fs = (Ok tt, fs')
    ∧ get_context n w fs' = (Ok (JObject r'), fs')
    ∧ r' = dict_set "last_updated" (JString now) r
    ∧ (∀ k, k ≠ "last_updated" → dict_get k r' = dict_get k r)
    ∧ dict_get "last_updated" r' = Some (JString now)
    ∧ (∀ c, dict_get "created" r = Some (JString c) → String.leb c now = true →
         timestamp_le (dict_get "created" r) (dict_get "last_updated" r')).
Proof.
  intros Hw Hr Hload. apply load_contexts_object in Hload; [|done].
  eexists _, _. split; [by apply (save_context_spec now n r kvs)|].
  split; [|split; [reflexivity|]].
  - rewrite get_context_spec by done. rewrite tenant_doc_written.
    + rewrite py_get_object. by rewrite dict_get_set_eq.
    + apply wf_dict_set; [by eapply tenant_doc_object_wf|].
      by apply wf_dict_set.
  - split; [|split].
    + intros k Hk. by apply dict_get_set_ne.
    + apply dict_get_set_eq.
    + intros c Hc Hle. exists c, now. by rewrite dict_get_set_eq.
Qed.

(** C5 (amended). When a non-empty workspace w holds under name n a record
    whose company_name is the string m, and w2 is a non-empty workspace
    with no records, exporting n from w and importing the text into w2
    without an explicit name succeeds and stores the record under m (under
    n when the record's company_name is n), with the company_context and
    the preferred_grant_criteria of the original. *)
Theorem export_import_round_trip now n m r w w2 fs :
  w ≠ EmptyString → w2 ≠ EmptyString →
  fst (get_context n w fs) = Ok (JObject r) →
  dict_get "company_name" r = Some (JString m) →
  fst (load_contexts w2 fs) = Ok (JObject []) →
  ∃ fs' r',
    export_import now n w w2 fs = (Ok true, fs')
    ∧ get_context m w2 fs' = (Ok (JObject r'), fs')
    ∧ dict_get "company_context" r' = dict_get "company_context" r
    ∧ dict_get "preferred_grant_criteria" r'
      = dict_get "preferred_grant_criteria" r.
Proof.
  intros Hw Hw2 Hget Hname Hfresh.
  apply load_contexts_object in Hfresh; [|done].
  assert (Hget' : get_context n w fs = (Ok (JObject r), fs)).
  { rewrite get_context_spec in Hget |- * by done.
    destruct (tenant_doc fs w) as [[| | | | |kvs]|e]; try done.
    rewrite py_get_object in Hget |- *. simpl in Hget. by rewrite Hget. }
  assert (Hr : wf_json (JObject r)).
  { rewrite get_context_spec in Hget by done.
    pose proof (tenant_doc_wf fs w) as Hwf.
    destruct (tenant_doc fs w) as [[| | | | |kvs]|e]; try done.
    specialize (Hwf _ eq_refl).
    rewrite py_get_object in Hget.
    destruct (dict_get n kvs) as [v|] eqn:Hv; [|done].
    injection Hget as ->. by eapply wf_dict_get. }
  assert (Hexp : export_context n w fs = (Ok (Some (json_dumps (JObject r))), fs)).
  { unfold export_context, bind. rewrite Hget'. simpl.
    by destruct r. }
  eexists _, _. split.
  { unfold export_import, bind. rewrite Hexp.
    apply (import_context_object now _ r m []); by rewrite ?loads_dumps. }
  split.
  - rewrite get_context_spec by done. rewrite tenant_doc_written.
    + rewrite py_get_object. simpl. by rewrite String.eqb_refl.
    + apply (wf_dict_set m _ []); [done|]. by apply wf_dict_set.
  - split; by apply dict_get_set_ne.
Qed.

(** *** The collection stays a mapping

    The theorems above that suppose the collection of a workspace to be a
    mapping apply to every state of the files that the repository itself
    has produced, whatever the arguments of its operations were. *)

Lemma documents_are_mappings_empty : documents_are_mappings ∅.
Proof. intros path c Hf. by rewrite lookup_empty in Hf. Qed.

Lemma documents_are_mappings_write fs path kvs :
  documents_are_mappings fs →
  documents_are_mappings (<[path := Text (json_dumps (JObject kvs))]> fs).
Proof.
  intros Hfs p c Hf.
  destruct (decide (path = p)) as [->|Hne].
  - rewrite lookup_insert_eq in Hf. injection Hf as <-.
    eexists. split; [done|]. intros v Hv.
    rewrite loads_dumps_dedup in Hv. injection Hv as <-. by eexists.
  - rewrite lookup_insert_ne in Hf by done. by eapply Hfs.
Qed.

Lemma documents_are_mappings_doc fs w :
  documents_are_mappings fs → ∃ kvs, tenant_doc fs w = Ok (JObject kvs).
Proof.
  intros Hfs. unfold tenant_doc.
  destruct (fs !! tenant_path w) as [c|] eqn:Hf; [|by eexists].
  destruct (Hfs _ _ Hf) as (text & -> & Htext).
  destruct (json_loads text) as [v|] eqn:Hv; [|by eexists].
  destruct (Htext _ eq_refl) as [kvs ->]. by eexists.
Qed.

Lemma documents_are_mappings_load fs w :
  documents_are_mappings fs → ∃ kvs, fst (load_contexts w fs) = Ok (JObject kvs).
Proof.
  intros Hfs. destruct (String.eqb_spec w EmptyString) as [->|Hw]; [by eexists|].
  rewrite load_contexts_spec by done. by apply documents_are_mappings_doc.
Qed.

(** [save_context] writes at most the tenant document of its key: a
    mapping, when the collection it loaded is one. *)
Lemma save_context_as_writes now name data w fs :
  snd (save_context_as now name data w fs) = fs
  ∨ ∃ v, snd (save_context_as now name data w fs)
         = <[tenant_path w := Text (json_dumps v)]> fs
         ∧ ((∃ kvs0, tenant_doc fs w = Ok (JObject kvs0)) → ∃ kvs, v = JObject kvs).
Proof.
  unfold save_context_as.
  destruct (String.eqb_spec w EmptyString) as [->|Hw]; [by left|].
  unfold bind. rewrite load_contexts_spec by done.
  destruct (tenant_doc fs w) as [contexts|e]; [|by left].
  destruct data as [| | | | |d]; try (by left). simpl.
  destruct contexts as [| | | |items|kvs]; try (by left).
  - destruct name as [| b | z | | |]; simpl; try (by left); unfold list_setitem;
      repeat (match goal with |- context [if ?c then _ else _] => destruct c end);
      simpl; try (by left);
      rewrite save_contexts_spec by done; right; eexists;
      (split; [done | by intros [kvs0 [=]]]).
  - destruct name; simpl; try (by left);
      rewrite save_contexts_spec by done; right; eexists;
      (split; [done | by eexists]).
Qed.

Lemma delete_context_writes n w fs :
  snd (delete_context n w fs) = fs
  ∨ ∃ kvs, snd (delete_context n w fs)
           = <[tenant_path w := Text (json_dumps (JObject kvs))]> fs.
Proof.
  destruct (String.eqb_spec w EmptyString) as [->|Hw]; [by left|].
  destruct (tenant_doc fs w) as [[| | | | |kvs]|e] eqn:Hdoc;
    try (left; apply delete_context_other; [done | congruence]).
  destruct (dict_mem n kvs) eqn:Hmem.
  - right. rewrite (delete_context_present n kvs w fs) by done. by eexists.
  - left. by rewrite (delete_context_absent n kvs w fs).
Qed.

Lemma snd_import_outcome (run : result unit * files) :
  snd (let (r, fs') :=
         let (r, fs') := run in
         match r with
         | Ok _ => (Ok true, fs')
         | Raise e => (Raise e, fs')
         end in
       match r with
       | Ok a => (Ok a, fs')
       | Raise e =>
           if existsb (exn_eqb e) [JSONDecodeError] then (Ok false, fs')
           else (Raise e, fs')
       end)
  = snd run.
Proof. destruct run as [[[]|e] fs']; [done | by destruct e]. Qed.

(** [import_context] writes nothing, or what the [save_context] of the
    value it read writes, under a name. *)
Lemma import_context_saves now text w name fs :
  snd (import_context now text w name fs) = fs
  ∨ ∃ k v, json_loads text = Some v
           ∧ snd (import_context now text w name fs)
             = snd (save_context_as now k v w fs).
Proof.
  unfold import_context.
  destruct (String.eqb_spec w EmptyString) as [->|Hw]; [by left|].
  cbv beta iota delta [try_except bind json_load].
  destruct (json_loads text) as [v|]; [|by left].
  destruct name as [n|]; [destruct (String.eqb n EmptyString)|];
    cbv beta iota delta [ret];
    try (rewrite snd_import_outcome; right; by eexists _, _);
    (destruct v as [| | | | |d]; cbv beta iota delta [py_get ret raise];
     [left; reflexivity .. |];
     rewrite snd_import_outcome; right; by eexists _, _).
Qed.

Lemma import_context_writes now text w name fs :
  snd (import_context now text w name fs) = fs
  ∨ ∃ v, snd (import_context now text w name fs)
         = <[tenant_path w := Text (json_dumps v)]> fs
         ∧ ((∃ kvs0, tenant_doc fs w = Ok (JObject kvs0)) → ∃ kvs, v = JObject kvs).
Proof.
  destruct (import_context_saves now text w name fs) as [->|(k & v & _ & ->)];
    [by left | apply save_context_as_writes].
Qed.

(** From the empty file system, every operation keeps the files such
    that [load_contexts] returns a mapping for every workspace key. *)
Lemma repository_keeps_mappings fs :
  documents_are_mappings fs →
  (∀ now name data w, documents_are_mappings (snd (save_context_as now name data w fs)))
  ∧ (∀ n w, documents_are_mappings (snd (delete_context n w fs)))
  ∧ (∀ now text w name, documents_are_mappings (snd (import_context now text w name fs))).
Proof.
  intros Hfs. split; [|split].
  - intros now name data w.
    destruct (save_context_as_writes now name data w fs) as [->|(v & -> & Hv)];
      [done|].
    destruct (Hv (documents_are_mappings_doc fs w Hfs)) as [kvs ->].
    by apply documents_are_mappings_write.
  - intros n w.
    destruct (delete_context_writes n w fs) as [->|[kvs ->]];
      [done | by apply documents_are_mappings_write].
  - intros now text w name.
    destruct (import_context_writes now text w name fs) as [->|(v & -> & Hv)];
      [done|].
    destruct (Hv (documents_are_mappings_doc fs w Hfs)) as [kvs ->].
    by apply documents_are_mappings_write.
Qed.

(** C7 (amended). The derivation of the tenant key and path never fails:
    [get_user_file_path] returns a path for every workspace key, the empty
    one included.  The empty key is turned away before the derivation, by
    the guard of each repository operation. *)
Theorem get_user_file_path_total :
  (∀ w fs, ∃ path, get_user_file_path w fs = (Ok path, fs))
  ∧ (∀ fs, load_contexts EmptyString fs = (Ok (JObject []), fs))
  ∧ (∀ v fs, save_contexts v EmptyString fs = (Ok tt, fs))
  ∧ (∀ now name r fs, save_context now name r EmptyString fs = (Ok tt, fs))
  ∧ (∀ name fs, delete_context name EmptyString fs = (Ok tt, fs))
  ∧ (∀ now text name fs,
       import_context now text EmptyString name fs = (Ok false, fs)).
Proof. repeat split. intros w fs. by eexists. Qed.

End Repository.

(** ** The tenant key *)

Section TenantKey.
Local Open Scope nat_scope.

Lemma elem_of_all_ascii c : c ∈ all_ascii.
Proof.
  unfold all_ascii. rewrite <- (ascii_nat_embedding c).
  apply list_elem_of_In, in_map, in_seq.
  pose proof (nat_ascii_bounded c). lia.
Qed.

Lemma elem_of_strings_upto n s : String.length s ≤ n → s ∈ strings_upto n.
Proof.
  revert s.
  induction n as [|n IH]; intros [|c s] Hlen; cbn [strings_upto String.length] in *;
    try lia; try apply list_elem_of_here.
  apply list_elem_of_further, list_elem_of_In, in_flat_map.
  exists s. split; [apply list_elem_of_In, IH; lia|].
  apply (in_map (fun c' => String c' s)), list_elem_of_In, elem_of_all_ascii.
Qed.

Lemma ident_length i : String.length (ident i) = S i.
Proof. induction i as [|i IH]; simpl; [done | by rewrite IH]. Qed.

(** A function from strings to strings of bounded length takes one value
    at two of the keys a, aa, aaa, ... *)
Lemma bounded_range_collides (f : string → string) (bound : nat) :
  (∀ s, String.length (f s) ≤ bound) →
  ∃ i j, i < j ∧ f (ident i) = f (ident j).
Proof.
  intros Hf.
  set (n := S (length (strings_upto bound))).
  destruct (list_pigeonhole ((λ i, f (ident i)) <$> seq 0 n) (strings_upto bound))
    as (i & j & x & Hij & Hi & Hj).
  - intros y (k & -> & _)%list_elem_of_fmap. apply elem_of_strings_upto, Hf.
  - rewrite length_fmap, length_seq. unfold n. lia.
  - rewrite list_lookup_fmap in Hi, Hj.
    destruct (seq 0 n !! i) as [i'|] eqn:Ei; [|done].
    destruct (seq 0 n !! j) as [j'|] eqn:Ej; [|done].
    apply lookup_seq in Ei as [-> _]. apply lookup_seq in Ej as [-> _].
    simpl in Hi, Hj. exists i, j. split; [done | congruence].
Qed.

Lemma substring_length_le m s : String.length (String.substring 0 m s) ≤ m.
Proof.
  revert s. induction m as [|m IH]; intros [|c s]; simpl; try lia.
  specialize (IH s). lia.
Qed.

Lemma substring_length_exact m s :
  m ≤ String.length s → String.length (String.substring 0 m s) = m.
Proof.
  revert s. induction m as [|m IH]; intros [|c s]; simpl; try lia.
  intros Hlen. rewrite IH; lia.
Qed.

Lemma string_length_app (a b : string) :
  String.length (a ++ b) = String.length a + String.length b.
Proof. induction a as [|c a IH]; simpl; [done | by rewrite IH]. Qed.

Lemma hexdigest_length w : String.length (Sha256.hexdigest w) = 64.
Proof. unfold Sha256.hexdigest. rewrite !string_length_app. reflexivity. Qed.

Lemma key_hash_length w : String.length (key_hash w) = 16.
Proof.
  unfold key_hash. apply substring_length_exact. rewrite hexdigest_length. lia.
Qed.

Lemma string_app_inv_tail (a b c : string) : a ++ c = b ++ c → a = b.
Proof.
  intros Heq.
  assert (Hl : (list_ascii_of_string a ++ list_ascii_of_string c
                = list_ascii_of_string b ++ list_ascii_of_string c)%list).
  { assert (Happ : ∀ x y, list_ascii_of_string (x ++ y)
                          = (list_ascii_of_string x ++ list_ascii_of_string y)%list).
    { intros x y. induction x as [|d x IH]; simpl; [done | by rewrite IH]. }
    by rewrite <- !Happ, Heq. }
  apply app_inv_tail in Hl.
  by rewrite <- (string_of_list_ascii_of_string a), Hl, string_of_list_ascii_of_string.
Qed.

Lemma string_app_inv_head (a b c : string) : a ++ b = a ++ c → b = c.
Proof. induction a as [|d a IH]; simpl; [done|]. intros [= Heq]. by apply IH. Qed.

Lemma tenant_path_inj w1 w2 :
  tenant_path w1 = tenant_path w2 ↔ key_hash w1 = key_hash w2.
Proof.
  unfold tenant_path. split; [|by intros ->].
  intros Heq. do 3 apply string_app_inv_head in Heq.
  by apply string_app_inv_tail in Heq.
Qed.

(** Distinct non-empty workspace keys with the same tenant key exist for
    any digest: tenant keys are strings of 16 characters, and there are
    more non-empty workspace keys than such strings. *)
Lemma key_hash_not_injective :
  ¬ (∀ w1 w2, w1 ≠ EmptyString → w2 ≠ EmptyString → w1 ≠ w2 →
       key_hash w1 ≠ key_hash w2).
Proof.
  intros Hinj.
  destruct (bounded_range_collides key_hash 16) as (i & j & Hij & Heq).
  { intros s. rewrite key_hash_length. lia. }
  apply (Hinj (ident i) (ident j)); [by destruct i | by destruct j | | done].
  intros Hid. apply (f_equal String.length) in Hid.
  rewrite !ident_length in Hid. lia.
Qed.

(** C2 (amended). The tenant key has 16 characters, equal workspace keys
    have equal tenant keys, and two workspace keys resolve to the same
    tenant document exactly when their tenant keys are equal. *)
Theorem tenant_document_by_key w1 w2 fs :
  String.length (key_hash w1) = 16
  ∧ (w1 = w2 → key_hash w1 = key_hash w2)
  ∧ (get_user_file_path w1 fs = get_user_file_path w2 fs
     ↔ key_hash w1 = key_hash w2).
Proof.
  split; [apply key_hash_length|]. split; [by intros ->|].
  rewrite !get_user_file_path_spec. split.
  - intros Heq. apply tenant_path_inj.
    apply (f_equal (λ r, match fst r with Ok p => p | Raise _ => EmptyString end)) in Heq.
    exact Heq.
  - intros Hk. apply tenant_path_inj in Hk. by rewrite Hk.
Qed.

End TenantKey.

(** Item assignment on a list: by index, from the end for a negative
    one, [True] being 1; past the end it raises, and so does a [str]. *)
Example py_setitem_list :
  fst (py_setitem (JArray [JInt 1; JInt 2]) (JInt (-1)) JNull ∅)
  = Ok (JArray [JInt 1; JNull])
  ∧ fst (py_setitem (JArray [JInt 1; JInt 2]) (JBool true) JNull ∅)
    = Ok (JArray [JInt 1; JNull])
  ∧ fst (py_setitem (JArray [JInt 1; JInt 2]) (JInt 2) JNull ∅) = Raise IndexError
  ∧ fst (py_setitem (JArray [JInt 1; JInt 2]) (JInt (-3)) JNull ∅) = Raise IndexError
  ∧ fst (py_setitem (JArray [JInt 1; JInt 2]) (JString "a") JNull ∅)
    = Raise TypeError.
Proof. repeat split. Qed.

(** ** How the operations of the repository compose *)

Section RepositoryUse.
Context {C : JsonCodec} {L : JsonLaws C}.
Implicit Types (fs : files) (w n m now : string).

Lemma load_contexts_returns w fs : ∃ r, load_contexts w fs = (r, fs).
Proof.
  destruct (String.eqb_spec w EmptyString) as [->|Hw]; [by eexists|].
  rewrite load_contexts_spec by done. by eexists.
Qed.

Lemma snd_py_get d k dflt fs : snd (py_get d k dflt fs) = fs.
Proof. by destruct d. Qed.

Lemma snd_py_keys d fs : snd (py_keys d fs) = fs.
Proof. by destruct d. Qed.

Lemma snd_get_context n w fs : snd (get_context n w fs) = fs.
Proof.
  unfold get_context, bind. destruct (load_contexts_returns w fs) as [[v|e] ->].
  - apply snd_py_get.
  - done.
Qed.

(** X1. The reads write nothing. *)
Theorem reads_write_nothing n w fs :
  snd (load_contexts w fs) = fs
  ∧ snd (get_context_names w fs) = fs
  ∧ snd (get_context n w fs) = fs
  ∧ snd (export_context n w fs) = fs.
Proof.
  split; [|split; [|split]].
  - by destruct (load_contexts_returns w fs) as [r ->].
  - unfold get_context_names, bind.
    destruct (load_contexts_returns w fs) as [[v|e] ->]; [apply snd_py_keys | done].
  - apply snd_get_context.
  - unfold export_context, bind.
    pose proof (snd_get_context n w fs) as Hs.
    destruct (get_context n w fs) as [[v|e] fs']; simpl in Hs; subst fs'; [|done].
    by destruct (truthy v).
Qed.

(** What the reads return is a function of the loaded collection. *)
Lemma reads_agree_load w fs fs' :
  fst (load_contexts w fs') = fst (load_contexts w fs) → reads_agree w fs fs'.
Proof.
  intros Hload.
  destruct (load_contexts_returns w fs) as [v Hv].
  destruct (load_contexts_returns w fs') as [v' Hv'].
  rewrite Hv, Hv' in Hload. simpl in Hload. subst v'.
  assert (Hget : ∀ n, fst (get_context n w fs') = fst (get_context n w fs)).
  { intros n. unfold get_context, bind. rewrite Hv, Hv'. by destruct v as [[]|]. }
  split; [|intros n; split; [apply Hget|]].
  - unfold get_context_names, bind. rewrite Hv, Hv'. by destruct v as [[]|].
  - unfold export_context, bind. specialize (Hget n).
    destruct (get_context n w fs') as [[x'|e'] f'], (get_context n w fs) as [[x|e] f];
      simpl in Hget; try done.
    + injection Hget as ->. by destruct (truthy x).
    + by injection Hget as ->.
Qed.

Lemma tenant_doc_other fs w1 w2 text :
  key_hash w1 ≠ key_hash w2 →
  tenant_doc (<[tenant_path w1 := text]> fs) w2 = tenant_doc fs w2.
Proof.
  intros Hk. unfold tenant_doc. rewrite lookup_insert_ne; [done|].
  by rewrite tenant_path_inj.
Qed.

Lemma snd_run op fs :
  snd (run op fs)
  = match op with
    | SaveContext now name data w => snd (save_context_as now name data w fs)
    | DeleteContext n w => snd (delete_context n w fs)
    | ImportContext now text w name => snd (import_context now text w name fs)
    end.
Proof.
  destruct op as [now name data w | n w | now text w name]; simpl; [| |done].
  - unfold bind. by destruct (save_context_as now name data w fs) as [[[]|e] fs'].
  - unfold bind. by destruct (delete_context n w fs) as [[[]|e] fs'].
Qed.

Lemma run_writes op fs :
  snd (run op fs) = fs
  ∨ ∃ text, snd (run op fs)
            = <[tenant_path (workspace_of op) := Text text]> fs.
Proof.
  rewrite snd_run. destruct op as [now name data w | n w | now text w name]; simpl.
  - destruct (save_context_as_writes now name data w fs) as [->|(v & -> & _)];
      [by left | right; by eexists].
  - destruct (delete_context_writes n w fs) as [->|(kvs & ->)];
      [by left | right; by eexists].
  - destruct (import_context_writes now text w name fs) as [->|(v & -> & _)];
      [by left | right; by eexists].
Qed.

(** X2. A call for one workspace leaves the reads of every workspace
    with another tenant key as they were. *)
Theorem workspaces_are_isolated op w fs :
  key_hash (workspace_of op) ≠ key_hash w →
  reads_agree w fs (snd (run op fs)).
Proof.
  intros Hk. apply reads_agree_load.
  destruct (String.eqb_spec w EmptyString) as [->|Hw]; [done|].
  rewrite !load_contexts_spec by done. simpl.
  destruct (run_writes op fs) as [->|[text ->]]; [done|].
  by rewrite tenant_doc_other.
Qed.

(** A listing comes from a collection that is a mapping. *)
Lemma get_context_names_object w names fs :
  w ≠ EmptyString → fst (get_context_names w fs) = Ok names →
  ∃ kvs, tenant_doc fs w = Ok (JObject kvs) ∧ names = dict_keys kvs
         ∧ NoDup (dict_keys kvs).
Proof.
  intros Hw. rewrite get_context_names_spec by done.
  pose proof (tenant_doc_wf fs w) as Hwf.
  destruct (tenant_doc fs w) as [[| | | | |kvs]|e]; try done.
  intros [= <-]. exists kvs. apply (wf_json_object kvs) in Hwf as [Hnd _]; done.
Qed.

Lemma dict_mem_keys {V} k (d : list (string * V)) :
  dict_mem k d = bool_decide (k ∈ dict_keys d).
Proof.
  destruct (dict_mem k d) eqn:Hm; symmetry.
  - apply bool_decide_eq_true. destruct (decide (k ∈ dict_keys d)) as [|Hn]; [done|].
    apply dict_mem_false in Hn. congruence.
  - apply bool_decide_eq_false. by apply dict_mem_false.
Qed.

Lemma dict_keys_dedup kvs :
  NoDup (map fst kvs) →
  ∃ kvs', dedup (JObject kvs) = JObject kvs' ∧ dict_keys kvs' = map fst kvs.
Proof.
  intros Hnd. rewrite dedup_object by done. eexists. split; [done|].
  unfold dict_keys. rewrite map_map. simpl. done.
Qed.

(** The collection after [save_context]: the record is there, and the
    keys are the old ones, with the name last if it is new. *)
Lemma collection_after_save now n r kvs w fs :
  w ≠ EmptyString → tenant_doc fs w = Ok (JObject kvs) →
  ∃ kvs', tenant_doc (snd (save_context now n (JObject r) w fs)) w = Ok (JObject kvs')
          ∧ dict_keys kvs'
            = (if dict_mem n kvs then dict_keys kvs else (dict_keys kvs ++ [n])%list).
Proof.
  intros Hw Hdoc. rewrite (save_context_spec now n r kvs w fs) by done. simpl.
  rewrite tenant_doc_written_any.
  destruct (dict_keys_dedup (dict_set n
    (JObject (dict_set "last_updated" (JString now) r)) kvs)) as (kvs' & -> & Hk).
  { apply NoDup_keys_set. by apply (wf_json_object kvs), (tenant_doc_object_wf fs w). }
  exists kvs'. split; [done|]. by rewrite Hk, dict_keys_set.
Qed.

(** X4. [save_context] lists the name once: a name that was listed keeps
    its place, a new one comes last. *)
Theorem save_context_lists_name now n r w names fs :
  w ≠ EmptyString →
  fst (get_context_names w fs) = Ok names →
  fst (save_context now n (JObject r) w fs) = Ok tt
  ∧ fst (get_context_names w (snd (save_context now n (JObject r) w fs)))
    = Ok (if bool_decide (n ∈ names) then names else (names ++ [n])%list).
Proof.
  intros Hw Hnames.
  destruct (get_context_names_object w names fs Hw Hnames) as (kvs & Hdoc & -> & Hnd).
  split; [by rewrite (save_context_spec now n r kvs w fs)|].
  destruct (collection_after_save now n r kvs w fs Hw Hdoc) as (kvs' & Hdoc' & Hk).
  rewrite get_context_names_spec, Hdoc' by done. simpl.
  by rewrite Hk, dict_mem_keys.
Qed.

Lemma filter_all {A} (P : A → Prop) `{∀ x, Decision (P x)} (l : list A) :
  (∀ x, x ∈ l → P x) → filter P l = l.
Proof.
  induction l as [|a l IH]; intros Hall; [done|].
  rewrite filter_cons_True by (apply Hall; left).
  f_equal. apply IH. intros x Hx. apply Hall. by right.
Qed.

Lemma dict_keys_del {V} k (d : list (string * V)) :
  NoDup (map fst d) →
  map fst (dict_del k d) = filter (λ x, x ≠ k) (map fst d).
Proof.
  induction d as [|[k0 v0] d IH]; simpl; [done|].
  rewrite NoDup_cons. intros [Hk0 Hd].
  destruct (String.eqb_spec k k0) as [->|Hne].
  - rewrite filter_cons_False by (intros H; by apply H).
    symmetry. apply filter_all. intros x Hx ->. done.
  - rewrite filter_cons_True by done. simpl. f_equal. by apply IH.
Qed.

(** X5. [delete_context] takes the name off the listing, keeps the
    order of the others, and [get_context] of the name is [None]. *)
Theorem delete_context_removes n w names fs :
  w ≠ EmptyString →
  fst (get_context_names w fs) = Ok names →
  fst (delete_context n w fs) = Ok tt
  ∧ fst (get_context_names w (snd (delete_context n w fs)))
    = Ok (filter (λ x, x ≠ n) names)
  ∧ fst (get_context n w (snd (delete_context n w fs))) = Ok JNull.
Proof.
  intros Hw Hnames.
  destruct (get_context_names_object w names fs Hw Hnames) as (kvs & Hdoc & -> & Hnd).
  destruct (dict_mem n kvs) eqn:Hmem.
  - rewrite (delete_context_present n kvs w fs) by done. simpl.
    rewrite get_context_names_spec, get_context_spec, tenant_doc_written by
      (done || by apply wf_dict_del, (tenant_doc_object_wf fs w)).
    simpl. rewrite dict_get_del_eq by done. unfold dict_keys.
    by rewrite dict_keys_del.
  - rewrite (delete_context_absent n kvs w fs) by done. simpl.
    rewrite get_context_names_spec, get_context_spec, Hdoc by done. simpl.
    apply dict_mem_false in Hmem as Hnot.
    rewrite filter_all by (intros x Hx ->; done).
    unfold dict_mem in Hmem. by destruct (dict_get n kvs).
Qed.

(** X6. The last [save_context] under a name wins: nothing of the
    record saved before remains, and the listing is as after the first. *)
Theorem save_context_overwrites t1 t2 n r1 r2 w names fs :
  w ≠ EmptyString → wf_json (JObject r2) →
  fst (get_context_names w fs) = Ok names →
  let fs1 := snd (save_context t1 n (JObject r1) w fs) in
  let fs2 := snd (save_context t2 n (JObject r2) w fs1) in
  fst (get_context n w fs2)
  = Ok (JObject (dict_set "last_updated" (JString t2) r2))
  ∧ fst (get_context_names w fs2) = fst (get_context_names w fs1).
Proof.
  intros Hw Hr2 Hnames fs1 fs2.
  destruct (get_context_names_object w names fs Hw Hnames) as (kvs & Hdoc & _ & _).
  destruct (collection_after_save t1 n r1 kvs w fs Hw Hdoc) as (kvs1 & Hdoc1 & Hk1).
  fold fs1 in Hdoc1.
  destruct (collection_after_save t2 n r2 kvs1 w fs1 Hw Hdoc1) as (kvs2 & Hdoc2 & Hk2).
  fold fs2 in Hdoc2.
  split.
  - subst fs2. rewrite (save_context_spec t2 n r2 kvs1 w fs1) by done. simpl.
    rewrite get_context_spec, tenant_doc_written by
      (done || (apply wf_dict_set;
                [by apply (tenant_doc_object_wf fs1 w) | by apply wf_dict_set])).
    simpl. by rewrite dict_get_set_eq.
  - rewrite !get_context_names_spec, Hdoc1, Hdoc2 by done. simpl. rewrite Hk2.
    f_equal. rewrite dict_mem_keys, bool_decide_true; [done|].
    rewrite Hk1. destruct (dict_mem n kvs) eqn:Hm.
    + rewrite dict_mem_keys in Hm. by apply bool_decide_eq_true in Hm.
    + apply elem_of_app. right. by left.
Qed.

(** X7. [save_context] on a tenant document that [json.load] rejects
    replaces it: the collection is then the saved record alone. *)
Theorem save_context_replaces_malformed now n r w path text fs :
  w ≠ EmptyString → wf_json (JObject r) →
  fst (get_user_file_path w fs) = Ok path →
  fs !! path = Some (Text text) → json_loads text = None →
  fst (save_context now n (JObject r) w fs) = Ok tt
  ∧ fst (load_contexts w (snd (save_context now n (JObject r) w fs)))
    = Ok (JObject [(n, JObject (dict_set "last_updated" (JString now) r))]).
Proof.
  intros Hw Hr Hpath Hfile Hload.
  rewrite get_user_file_path_spec in Hpath. injection Hpath as <-.
  assert (Hdoc : tenant_doc fs w = Ok (JObject [])).
  { unfold tenant_doc. by rewrite Hfile, Hload. }
  rewrite (save_context_spec now n r [] w fs) by done. split; [done|]. simpl.
  rewrite load_contexts_spec, tenant_doc_written; [done| |done].
  apply (wf_dict_set n _ []); [done | by apply wf_dict_set].
Qed.

(** X8. A listing names no context twice, and [get_context] returns a
    record only for a name that is listed. *)
Theorem listing_is_consistent w names fs :
  fst (get_context_names w fs) = Ok names →
  NoDup names
  ∧ ∀ n v, fst (get_context n w fs) = Ok v → v ≠ JNull → n ∈ names.
Proof.
  intros Hnames. destruct (String.eqb_spec w EmptyString) as [->|Hw].
  - injection Hnames as <-. split; [constructor|]. intros n v [= <-]. done.
  - destruct (get_context_names_object w names fs Hw Hnames)
      as (kvs & Hdoc & -> & Hnd).
    split; [done|]. intros n v. rewrite get_context_spec, Hdoc by done. simpl.
    destruct (dict_get n kvs) eqn:Hg; intros [= <-] Hv; [|done].
    destruct (decide (n ∈ dict_keys kvs)) as [|Hn]; [done|].
    apply dict_get_None in Hn. congruence.
Qed.

Lemma get_context_wf n w v fs : fst (get_context n w fs) = Ok v → wf_json v.
Proof.
  intros Hget. destruct (String.eqb_spec w EmptyString) as [->|Hw].
  - by injection Hget as <-.
  - rewrite get_context_spec in Hget by done.
    pose proof (tenant_doc_wf fs w) as Hd.
    destruct (tenant_doc fs w) as [[| | | | |kvs]|e]; try done.
    specialize (Hd _ eq_refl). simpl in Hget. injection Hget as <-.
    destruct (dict_get n kvs) eqn:Hg; [by eapply wf_dict_get | done].
Qed.

(** X9. [export_context] of a record that is there returns a text that
    [json.loads] reads back as the record; of a name that has none, or
    an empty one, it returns [None]. *)
Theorem export_context_reads_back n w v fs :
  fst (get_context n w fs) = Ok v →
  if truthy v
  then ∃ text, fst (export_context n w fs) = Ok (Some text)
               ∧ json_loads text = Some v
  else fst (export_context n w fs) = Ok None.
Proof.
  intros Hget. unfold export_context, bind.
  pose proof (get_context_wf n w v fs Hget) as Hwf.
  destruct (get_context n w fs) as [[x|e] fs']; simpl in Hget; [|done].
  injection Hget as ->. destruct (truthy v); [|done].
  eexists. split; [done|]. by apply loads_dumps.
Qed.

(** [import_context] with a name that is not empty *)
Lemma import_context_named now text d k kvs w fs :
  w ≠ EmptyString → k ≠ EmptyString → json_loads text = Some (JObject d) →
  tenant_doc fs w = Ok (JObject kvs) →
  import_context now text w (Some k) fs
  = (Ok true,
     <[tenant_path w :=
         Text (json_dumps (JObject (dict_set k
           (JObject (dict_set "last_updated" (JString now) d)) kvs)))]> fs).
Proof.
  intros Hw Hk Hload Hdoc. unfold import_context.
  destruct (String.eqb_spec w EmptyString) as [|_]; [done|].
  destruct (String.eqb_spec k EmptyString) as [|_]; [done|].
  unfold try_except, bind at 1, json_load. rewrite Hload. simpl.
  unfold bind at 1. simpl.
  unfold bind at 1. fold (save_context now k (JObject d) w).
  by rewrite (save_context_spec now k d kvs).
Qed.

(** [import_context] without a name, of a document without company_name *)
Lemma import_context_unnamed now text d name kvs w fs :
  w ≠ EmptyString → name_given name = false →
  json_loads text = Some (JObject d) → dict_get "company_name" d = None →
  tenant_doc fs w = Ok (JObject kvs) →
  import_context now text w name fs
  = (Ok true,
     <[tenant_path w :=
         Text (json_dumps (JObject (dict_set "Imported Context"
           (JObject (dict_set "last_updated" (JString now) d)) kvs)))]> fs).
Proof.
  intros Hw Hname Hload Hcompany Hdoc. unfold import_context.
  destruct (String.eqb_spec w EmptyString) as [|_]; [done|].
  unfold try_except, bind at 1, json_load. rewrite Hload.
  destruct name as [n0|]; [simpl in Hname; destruct (String.eqb n0 EmptyString);
                           [|done]|];
    simpl; unfold bind at 1; simpl; rewrite Hcompany; unfold bind at 1;
    fold (save_context now "Imported Context" (JObject d) w);
    by rewrite (save_context_spec now "Imported Context" d kvs).
Qed.

(** X10. [import_context] with a name stores the document under that
    name, whatever its company_name; with none, a document that has no
    company_name goes under Imported Context. *)
Theorem import_context_chooses_name now text d w name k names fs :
  w ≠ EmptyString → json_loads text = Some (JObject d) →
  fst (get_context_names w fs) = Ok names →
  (name = Some k ∧ k ≠ EmptyString)
  ∨ (name_given name = false ∧ dict_get "company_name" d = None
     ∧ k = "Imported Context") →
  fst (import_context now text w name fs) = Ok true
  ∧ fst (get_context k w (snd (import_context now text w name fs)))
    = Ok (JObject (dict_set "last_updated" (JString now) d)).
Proof.
  intros Hw Hload Hnames Hcase.
  destruct (get_context_names_object w names fs Hw Hnames) as (kvs & Hdoc & _ & _).
  assert (Hd : wf_json (JObject d)) by (by apply loads_wf in Hload).
  assert (Hrun : import_context now text w name fs
    = (Ok true,
       <[tenant_path w :=
           Text (json_dumps (JObject (dict_set k
             (JObject (dict_set "last_updated" (JString now) d)) kvs)))]> fs)).
  { destruct Hcase as [[-> Hk]|(Hname & Hcompany & ->)].
    - by apply import_context_named.
    - by apply import_context_unnamed. }
  rewrite Hrun. split; [done|]. simpl.
  rewrite get_context_spec, tenant_doc_written by
    (done || (apply wf_dict_set;
              [by apply (tenant_doc_object_wf fs w) | by apply wf_dict_set])).
  simpl. by rewrite dict_get_set_eq.
Qed.










(** X12. A record that is exported and imported under a name, into the
    same workspace or another, is stored under that name as it was,
    with last_updated set to the time of the import; its company_name
    plays no part. *)
Theorem export_import_under_name now n m r w w2 names fs :
  w2 ≠ EmptyString → m ≠ EmptyString → r ≠ [] →
  fst (get_context n w fs) = Ok (JObject r) →
  fst (get_context_names w2 fs) = Ok names →
  ∃ text,
    export_context n w fs = (Ok (Some text), fs)
    ∧ fst (import_context now text w2 (Some m) fs) = Ok true
    ∧ fst (get_context m w2 (snd (import_context now text w2 (Some m) fs)))
      = Ok (JObject (dict_set "last_updated" (JString now) r)).
Proof.
  intros Hw2 Hm Hr Hget Hnames.
  pose proof (get_context_wf n w _ fs Hget) as Hwf.
  destruct (get_context_names_object w2 names fs Hw2 Hnames) as (kvs & Hdoc & _ & _).
  exists (json_dumps (JObject r)). split.
  - unfold export_context, bind. pose proof (snd_get_context n w fs) as Hs.
    destruct (get_context n w fs) as [[v|e] fs']; simpl in *; [|done].
    injection Hget as ->. subst fs'. by destruct r.
  - rewrite (import_context_named now _ r m kvs w2 fs) by (done || by apply loads_dumps).
    split; [done|]. simpl.
    rewrite get_context_spec, tenant_doc_written by
      (done || (apply wf_dict_set;
                [by apply (tenant_doc_object_wf fs w2) | by apply wf_dict_set])).
    simpl. by rewrite dict_get_set_eq.
Qed.

End RepositoryUse.

(** ** [str.strip] on ASCII text *)

Lemma append_cons c a b : String c a ++ b = String c (a ++ b).
Proof. reflexivity. Qed.

Lemma lstrip_within s : ∃ a, s = a ++ lstrip s.
Proof.
  induction s as [|c s [a IH]]; simpl; [by exists EmptyString|].
  destruct (is_space c); [|by exists EmptyString].
  exists (String c a). rewrite append_cons. by f_equal.
Qed.

Lemma rstrip_within s : ∃ b, s = rstrip s ++ b.
Proof.
  induction s as [|c s [b IH]]; simpl; [by exists EmptyString|].
  destruct (rstrip s) as [|c' t] eqn:Hr.
  - destruct (is_space c).
    + exists (String c s). done.
    + exists b. rewrite append_cons. by f_equal.
  - exists b. rewrite append_cons. by f_equal.
Qed.

Lemma rstrip_idem s : rstrip (rstrip s) = rstrip s.
Proof.
  induction s as [|c s IH]; simpl; [done|].
  destruct (rstrip s) as [|c' t] eqn:Hr.
  - destruct (is_space c) eqn:Hc; simpl; [done|]. by rewrite Hc.
  - change (rstrip (String c (String c' t)) = String c (String c' t)).
    simpl. simpl in IH. by rewrite IH.
Qed.

(** A text that does not start with whitespace *)
Definition clean_head (s : string) : Prop :=
  match s with
  | EmptyString => True
  | String c _ => is_space c = false
  end.

Lemma lstrip_clean_head s : clean_head (lstrip s).
Proof.
  induction s as [|c s IH]; simpl; [done|].
  destruct (is_space c) eqn:Hc; [done|]. simpl. done.
Qed.

Lemma lstrip_of_clean_head s : clean_head s → lstrip s = s.
Proof. destruct s as [|c s]; simpl; [done|]. by intros ->. Qed.

Lemma rstrip_clean_head s : clean_head s → clean_head (rstrip s).
Proof.
  destruct s as [|c s]; simpl; [done|]. intros Hc.
  destruct (rstrip s); simpl; [by rewrite Hc|done].
Qed.

Lemma ascii_strip_laws : StripLaws python_strip.
Proof.
  split; simpl; unfold ascii_strip.
  - intros s.
    rewrite (lstrip_of_clean_head (rstrip (lstrip s))) by
      apply rstrip_clean_head, lstrip_clean_head.
    apply rstrip_idem.
  - done.
  - intros s. destruct (lstrip_within s) as [a Ha].
    destruct (rstrip_within (lstrip s)) as [b Hb].
    exists a, b. by rewrite <- Hb.
Qed.

(** ** Splitting and joining *)

Lemma comma_free_app a b : comma_free (a ++ b) = comma_free a && comma_free b.
Proof.
  induction a as [|c a IH]; [done|].
  rewrite append_cons. simpl. rewrite IH. by rewrite andb_assoc.
Qed.

Lemma split_comma_whole x : comma_free x = true → split_comma x = [x].
Proof.
  induction x as [|c x IH]; simpl; [done|].
  intros [Hc Hx]%andb_true_iff. apply negb_true_iff in Hc. rewrite Hc.
  by rewrite IH.
Qed.

Lemma split_comma_cons x rest :
  comma_free x = true →
  split_comma (x ++ String "," rest) = x :: split_comma rest.
Proof.
  induction x as [|c x IH]; [done|]. rewrite append_cons. simpl.
  intros [Hc Hx]%andb_true_iff. apply negb_true_iff in Hc. rewrite Hc.
  by rewrite IH.
Qed.

Lemma split_comma_pieces s : Forall (λ x, comma_free x = true) (split_comma s).
Proof.
  induction s as [|c s IH]; simpl; [by repeat constructor|].
  destruct (Ascii.eqb c ",") eqn:Hc; [by constructor|].
  destruct (split_comma s) as [|piece rest].
  { constructor; [simpl; by rewrite Hc | constructor]. }
  apply Forall_cons in IH as [Hp Hr]. constructor; [|done].
  simpl. by rewrite Hc, Hp.
Qed.

Lemma split_comma_join x xs :
  Forall (λ x, comma_free x = true) (x :: xs) →
  split_comma (join_comma (x :: xs)) = x :: map (String " ") xs.
Proof.
  revert x. induction xs as [|y xs IH]; intros x [Hx Hxs]%Forall_cons.
  - by apply split_comma_whole.
  - change (join_comma (x :: y :: xs))
      with (x ++ String "," (String " " (join_comma (y :: xs)))).
    rewrite split_comma_cons by done. f_equal.
    change (split_comma (String " " (join_comma (y :: xs))))
      with (match split_comma (join_comma (y :: xs)) with
            | piece :: rest => String " " piece :: rest
            | [] => [String " " EmptyString]
            end).
    by rewrite IH.
Qed.

Section Keywords.
Context {S : StrStrip} {SL : StripLaws S}.

Lemma strip_empty : py_strip EmptyString = EmptyString.
Proof.
  destruct (strip_within EmptyString) as (a & b & H).
  destruct a; [|done]. simpl in H. by destruct (py_strip EmptyString).
Qed.

Lemma strip_comma_free x : comma_free x = true → comma_free (py_strip x) = true.
Proof.
  destruct (strip_within x) as (a & b & H). rewrite H at 1.
  rewrite !comma_free_app. by intros [_ [? _]%andb_true_iff]%andb_true_iff.
Qed.

Lemma split_csv_elem s x : x ∈ _split_csv s → is_keyword x.
Proof.
  unfold _split_csv. intros Hin.
  apply list_elem_of_In, in_map_iff in Hin as (piece & <- & Hin).
  apply filter_In in Hin as [Hin Hne].
  apply negb_true_iff in Hne.
  pose proof (split_comma_pieces s) as Hall.
  rewrite Forall_forall in Hall.
  split; [|split].
  - intros Heq. rewrite Heq in Hne. done.
  - apply strip_idem.
  - apply strip_comma_free, Hall. by apply list_elem_of_In.
Qed.

(** X13. Every keyword that [_split_csv] returns is not empty, holds
    no comma and has no whitespace around it. *)
Theorem split_csv_keywords s : Forall is_keyword (_split_csv s).
Proof. apply Forall_forall. intros x. apply split_csv_elem. Qed.

Lemma split_csv_pieces x xs :
  Forall is_keyword (x :: xs) →
  map py_strip
    (List.filter (λ p, negb (String.eqb (py_strip p) EmptyString))
       (x :: map (String " ") xs))
  = x :: xs.
Proof.
  intros [(Hx & Hsx & _) Hxs]%Forall_cons. simpl. rewrite Hsx.
  destruct (String.eqb_spec x EmptyString) as [|_]; [done|]. simpl.
  rewrite Hsx. f_equal.
  induction Hxs as [|y ys (Hy & Hsy & _) _ IH]; simpl; [done|].
  rewrite strip_space, Hsy.
  destruct (String.eqb_spec y EmptyString) as [|_]; [done|]. simpl.
  by rewrite strip_space, Hsy, IH.
Qed.

Lemma Forall_is_keyword xs :
  forallb (λ x, negb (String.eqb x EmptyString) && String.eqb (py_strip x) x
                && comma_free x) xs = true →
  Forall is_keyword xs.
Proof.
  rewrite forallb_forall, Forall_forall. intros Hall x Hx%list_elem_of_In.
  apply Hall in Hx as [[Hne Hs]%andb_true_iff Hc]%andb_true_iff.
  apply negb_true_iff in Hne.
  split; [by intros -> | split; [by apply String.eqb_eq | done]].
Qed.

Lemma split_of_join xs :
  Forall is_keyword xs → _split_csv (join_comma xs) = xs.
Proof.
  intros Hxs. unfold _split_csv. destruct xs as [|x xs].
  - simpl. by rewrite strip_empty.
  - rewrite split_comma_join.
    + by apply split_csv_pieces.
    + eapply Forall_impl; [exact Hxs|]. by intros y (_ & _ & Hy).
Qed.

(** X14. A list of keywords, shown by the editor as one string, is
    split back into the same list. *)
Theorem split_csv_join xs :
  Forall is_keyword xs → _split_csv (join_comma xs) = xs.
Proof. apply split_of_join. Qed.

(** X15. Showing the keywords that were split and splitting them again
    changes nothing. *)
Theorem split_csv_join_split s :
  _split_csv (join_comma (_split_csv s)) = _split_csv s.
Proof. apply split_of_join, Forall_forall. intros x. apply split_csv_elem. Qed.

End Keywords.

(** ** The pages and the configuration *)

Section Editor.
Context {C : JsonCodec} {L : JsonLaws C} {S : StrStrip} {SL : StripLaws S}.
Implicit Types (fs : files) (w n now : string) (form : editor_form).

Lemma all_str_strings xs : all_str (map JString xs) = Some xs.
Proof. induction xs as [|x xs IH]; simpl; [done|]. by rewrite IH. Qed.

Lemma wf_json_strings xs : wf_json (JArray (map JString xs)).
Proof.
  apply wf_json_array. intros x Hx.
  by apply list_elem_of_fmap in Hx as (s & -> & _).
Qed.

Lemma wf_criteria_record sy ts so sn : wf_json (criteria_record sy ts so sn).
Proof.
  unfold criteria_record. apply wf_json_object. split.
  - simpl. by apply (bool_decide_unpack _); vm_compute.
  - intros kv Hin. repeat (apply elem_of_cons in Hin as [->|Hin]);
      [apply wf_json_strings | | apply wf_json_strings | by apply elem_of_nil in Hin].
    simpl. apply wf_json_object. split.
    + simpl. by apply (bool_decide_unpack _); vm_compute.
    + intros kv Hin. repeat (apply elem_of_cons in Hin as [->|Hin]);
        [apply wf_json_strings .. | by apply elem_of_nil in Hin].
Qed.

Lemma updated_criteria_record form :
  updated_criteria form
  = criteria_record (_split_csv (strong_yes_str form)) (_split_csv (tech_sys_str form))
      (_split_csv (socio_str form)) (_split_csv (strong_no_str form)).
Proof. reflexivity. Qed.

(** The editor shows criteria of that shape as the four joined lists. *)
Lemma criteria_strings_record default r sy ts so sn fs :
  dict_get "preferred_grant_criteria" r = Some (criteria_record sy ts so sn) →
  criteria_strings default (JObject r) fs
  = (Ok (join_comma sy, join_comma sn, join_comma ts, join_comma so), fs).
Proof.
  intros Hcrit. unfold criteria_strings, editor_criteria, bind at 1.
  unfold bind at 1. rewrite py_get_object, Hcrit. simpl.
  unfold bind. simpl. by rewrite !all_str_strings.
Qed.

Lemma criteria_record_round_trip default r sy ts so sn form fs :
  Forall is_keyword sy → Forall is_keyword ts →
  Forall is_keyword so → Forall is_keyword sn →
  dict_get "preferred_grant_criteria" r = Some (criteria_record sy ts so sn) →
  ∃ strings,
    fst (criteria_strings default (JObject r) fs) = Ok strings
    ∧ updated_criteria (with_criteria form strings) = criteria_record sy ts so sn.
Proof.
  intros Hsy Hts Hso Hsn Hcrit. eexists. split.
  - by rewrite (criteria_strings_record default r sy ts so sn).
  - rewrite updated_criteria_record. simpl. by rewrite !split_of_join.
Qed.

(** X16. Save Context with a company name that is blank once stripped
    saves nothing; otherwise the record is stored under the stripped
    name, which is also its company_name, and holds the stripped
    context, the criteria split from the form and the time of the save,
    and nothing else. *)
Theorem editor_save_stores now form w names fs :
  w ≠ EmptyString →
  fst (get_context_names w fs) = Ok names →
  let name := py_strip (company_name form) in
  if String.eqb name EmptyString
  then editor_save now form w fs = (Ok NameRequired, fs)
  else fst (editor_save now form w fs) = Ok (Saved name)
       ∧ fst (get_context name w (snd (editor_save now form w fs)))
         = Ok (JObject
                 [("company_name", JString name);
                  ("company_context",
                   JString (py_strip (company_context_text form)));
                  ("preferred_grant_criteria", updated_criteria form);
                  ("last_updated", JString now)]).
Proof.
  intros Hw Hnames name. unfold editor_save. fold name.
  destruct (String.eqb name EmptyString); [done|].
  destruct (get_context_names_object w names fs Hw Hnames) as (kvs & Hdoc & _ & _).
  unfold bind. rewrite (save_context_spec now name _ kvs w fs) by done.
  cbv beta iota delta [ret snd fst]. split; [done|].
  rewrite get_context_spec, tenant_doc_written; [|  |done].
  - rewrite py_get_object, dict_get_set_eq. done.
  - apply wf_dict_set; [by apply (tenant_doc_object_wf fs w)|].
    apply wf_json_object. split.
    + simpl. by apply (bool_decide_unpack _); vm_compute.
    + intros kv Hin. repeat (apply elem_of_cons in Hin as [->|Hin]); try done.
      * rewrite updated_criteria_record. apply wf_criteria_record.
      * by apply elem_of_nil in Hin.
Qed.

(** X17. A record that the editor saved, opened again and saved with
    the criteria text areas as the editor filled them, keeps its
    criteria. *)
Theorem editor_resave_keeps_criteria default form form' r fs :
  dict_get "preferred_grant_criteria" r = Some (updated_criteria form) →
  ∃ strings,
    fst (criteria_strings default (JObject r) fs) = Ok strings
    ∧ updated_criteria (with_criteria form' strings) = updated_criteria form.
Proof.
  intros Hcrit. rewrite updated_criteria_record in *.
  apply (criteria_record_round_trip default r); try done;
    apply Forall_forall; intros x; apply split_csv_elem.
Qed.

(** X18. A new context, made by [create_default_context] from default
    criteria whose lists hold keywords, and saved with the criteria text
    areas as the editor filled them, stores the default criteria. *)
Theorem new_context_keeps_default_criteria now sy ts so sn form fs :
  Forall is_keyword sy → Forall is_keyword ts →
  Forall is_keyword so → Forall is_keyword sn →
  let default := criteria_record sy ts so sn in
  ∃ strings,
    fst (criteria_strings default (create_default_context default now) fs)
    = Ok strings
    ∧ updated_criteria (with_criteria form strings) = default.
Proof.
  intros Hsy Hts Hso Hsn default.
  by apply (criteria_record_round_trip default).
Qed.

End Editor.

Section WorkspaceKey.
Context {S : StrStrip} {SL : StripLaws S}.

(** The session holds no key, or a key with no whitespace around it. *)
Lemma script_runs_stripped uis s :
  (∀ k, s = Some k → py_strip k = k ∨ k = EmptyString) →
  ∀ k, script_runs uis s = Some k → py_strip k = k ∨ k = EmptyString.
Proof.
  revert s. induction uis as [|ui uis IH]; intros s Hs; [done|].
  simpl. apply IH. intros k. unfold get_workspace_key.
  destruct s as [k0|]; simpl.
  - destruct (String.eqb_spec k0 EmptyString) as [->|Hk0].
    + destruct (access_pressed ui); [|intros [= <-]; by right].
      destruct (String.eqb (py_strip (key_1 ui)) EmptyString);
        [intros [= <-]; by right|].
      destruct (String.eqb (py_strip (key_1 ui)) (py_strip (key_2 ui))); simpl;
        intros [= <-]; [left; apply strip_idem | by right].
    + intros [= <-]. by apply Hs.
  - destruct (access_pressed ui); [|intros [= <-]; by right].
    destruct (String.eqb (py_strip (key_1 ui)) EmptyString);
      [intros [= <-]; by right|].
    destruct (String.eqb (py_strip (key_1 ui)) (py_strip (key_2 ui))); simpl;
      intros [= <-]; [left; apply strip_idem | by right].
Qed.

(** X19. Whatever was entered in the runs of a session that started
    without a key, a key that [get_workspace_key] returns is not empty
    and has no whitespace around it. *)
Theorem workspace_key_is_never_empty uis ui k s' :
  get_workspace_key ui (script_runs uis None) = (ReturnKey k, s') →
  k ≠ EmptyString ∧ py_strip k = k.
Proof.
  pose proof (script_runs_stripped uis None) as Hinv.
  unfold get_workspace_key.
  destruct (script_runs uis None) as [k0|]; simpl.
  - destruct (String.eqb_spec k0 EmptyString) as [->|Hk0].
    + destruct (access_pressed ui); [|done].
      destruct (String.eqb (py_strip (key_1 ui)) EmptyString); [done|].
      by destruct (String.eqb (py_strip (key_1 ui)) (py_strip (key_2 ui))).
    + intros [= <- _]. split; [done|].
      destruct (Hinv ltac:(done) k0 eq_refl); done.
  - destruct (access_pressed ui); [|done].
    destruct (String.eqb (py_strip (key_1 ui)) EmptyString); [done|].
    by destruct (String.eqb (py_strip (key_1 ui)) (py_strip (key_2 ui))).
Qed.

(** X20. In a session without a key, pressing Access Workspace with two
    entries that are equal once stripped, and not empty, restarts the
    script, and every later run returns the stripped key. *)
Theorem workspace_key_accepted ui uis ui' s :
  s = None ∨ s = Some EmptyString →
  access_pressed ui = true →
  py_strip (key_1 ui) ≠ EmptyString →
  py_strip (key_1 ui) = py_strip (key_2 ui) →
  fst (get_workspace_key ui s) = StRerun
  ∧ fst (get_workspace_key ui'
           (script_runs uis (snd (get_workspace_key ui s))))
    = ReturnKey (py_strip (key_1 ui)).
Proof.
  intros Hs Hpressed Hk Heq.
  assert (Hrun : get_workspace_key ui s = (StRerun, Some (py_strip (key_1 ui)))).
  { unfold get_workspace_key. destruct Hs as [->| ->]; simpl; rewrite Hpressed;
      destruct (String.eqb_spec (py_strip (key_1 ui)) EmptyString); try done;
      rewrite <- Heq, String.eqb_refl; done. }
  rewrite Hrun. split; [done|]. simpl.
  assert (Hkeep : ∀ ui0, get_workspace_key ui0 (Some (py_strip (key_1 ui)))
                         = (ReturnKey (py_strip (key_1 ui)), Some (py_strip (key_1 ui)))).
  { intros ui0. unfold get_workspace_key.
    by destruct (String.eqb_spec (py_strip (key_1 ui)) EmptyString). }
  assert (Hruns : script_runs uis (Some (py_strip (key_1 ui)))
                  = Some (py_strip (key_1 ui))).
  { induction uis as [|ui0 uis IH]; [done|]. simpl. by rewrite Hkeep. }
  by rewrite Hruns, Hkeep.
Qed.

End WorkspaceKey.

Section Config.
Context {C : JsonCodec}.

(** X21. A GOOGLE_SERVICE_ACCOUNT_JSON that is set and not empty
    decides what [get_gcp_service_account] returns, whatever the secrets
    hold: the value that [json.loads] reads, or [None] when it rejects
    the text. *)
Theorem gcp_environment_masks_secrets environ text secret :
  environ !! "GOOGLE_SERVICE_ACCOUNT_JSON" = Some text →
  text ≠ EmptyString →
  get_gcp_service_account environ secret
  = Ok (match json_loads text with Some v => v | None => JNull end).
Proof.
  intros Henv Htext. unfold get_gcp_service_account. rewrite Henv. simpl.
  destruct (String.eqb_spec text EmptyString) as [|_]; [done|]. simpl.
  by destruct (json_loads text).
Qed.

End Config.

(** ** Runs on the reference [json] module *)

#[local] Existing Instance python_json.
#[local] Existing Instance PyJsonFacts.python_json_laws.

(** The scenario of the specification: alice saves Acme Corp and lists it,
    bob lists nothing, and after alice deletes it the name is absent. *)
Example scenario_alice_and_bob :
  let saved := snd (save_context t0 "Acme Corp" (JObject acme_record) "alice" ∅) in
  fst (get_context_names "alice" saved) = Ok ["Acme Corp"]
  ∧ fst (get_context_names "bob" saved) = Ok []
  ∧ fst (get_context "Acme Corp" "alice"
           (snd (delete_context "Acme Corp" "alice" saved))) = Ok JNull.
Proof. vm_compute. repeat split; reflexivity. Qed.

(** C1 (amended). Importing the document with company_name X and nothing
    else into a non-empty workspace whose collection is a mapping succeeds
    and stores under X exactly the fields of the document and last_updated:
    no preferred_grant_criteria is stored.  The defaults come in when the
    record is read for editing, and they are the default criteria, not an
    empty strong_yes. *)
Theorem import_stores_document_fields now w kvs fs :
  w ≠ EmptyString →
  fst (load_contexts w fs) = Ok (JObject kvs) →
  ∃ fs' r',
    import_context now (py "{'company_name':'X'}") w None fs = (Ok true, fs')
    ∧ get_context "X" w fs' = (Ok (JObject r'), fs')
    ∧ r' = [("company_name", JString "X"); ("last_updated", JString now)]
    ∧ dict_get "preferred_grant_criteria" r' = None
    ∧ ∀ default_criteria,
        editor_criteria default_criteria (JObject r') fs' = (Ok default_criteria, fs').
Proof.
  intros Hw Hload. apply load_contexts_object in Hload; [|done].
  eexists _, _. split.
  { by apply (import_context_object now _ [("company_name", JString "X")] "X" kvs). }
  split; [|done].
  rewrite get_context_spec by done. rewrite tenant_doc_written.
  - rewrite py_get_object. by rewrite dict_get_set_eq.
  - apply wf_dict_set; [by eapply tenant_doc_object_wf | done].
Qed.

(** The import of the document into the store of alice *)
Lemma import_stores_document_fields_witness :
  ∃ fs', import_context t0 (py "{'company_name':'X'}") "alice" None store0
         = (Ok true, fs').
Proof.
  assert (Hkey : "alice" ≠ EmptyString) by discriminate.
  assert (Hload : fst (load_contexts "alice" store0)
                  = Ok (JObject [("Other", JObject other_record)]))
    by (vm_compute; reflexivity).
  destruct (import_stores_document_fields t0 "alice" _ store0 Hkey Hload)
    as (fs' & r' & Himp & _).
  exists fs'. exact Himp.
Defined.

(** C1 (counterexample). After the import into the empty store the record
    under X has no preferred_grant_criteria at all. *)
Lemma import_leaves_criteria_missing :
  ∃ r, fst (get_context "X" "alice"
              (snd (import_context t0 (py "{'company_name':'X'}") "alice" None ∅)))
       = Ok r
       ∧ ¬ criteria_defaulted r.
Proof.
  eexists. split; [vm_compute; reflexivity|].
  intros (fields & crit & [= <-] & Hcrit & _). discriminate Hcrit.
Qed.

(** C3 (counterexample). A record created in 2031 and saved in 2026 is
    read back with a last_updated that is before its created. *)
Lemma save_then_get_counterexample :
  ∃ r', fst (get_context "Acme Corp" "alice"
               (snd (save_context t0 "Acme Corp" (JObject acme_record) "alice" ∅)))
        = Ok (JObject r')
        ∧ ¬ timestamp_le (dict_get "created" acme_record)
                         (dict_get "last_updated" r').
Proof.
  eexists. split; [vm_compute; reflexivity|].
  intros (s & t & [= <-] & [= <-] & Hle). discriminate Hle.
Qed.

(** Saving the Acme record into the store of alice and reading it back *)
Lemma save_then_get_witness :
  ∃ fs', save_context t0 "Acme Corp" (JObject acme_record) "alice" store0 = (Ok tt, fs')
         ∧ get_context "Acme Corp" "alice" fs'
           = (Ok (JObject (dict_set "last_updated" (JString t0) acme_record)), fs').
Proof.
  assert (Hkey : "alice" ≠ EmptyString) by discriminate.
  assert (Hwf : wf_json (JObject acme_record)) by (vm_compute; reflexivity).
  assert (Hload : fst (load_contexts "alice" store0)
                  = Ok (JObject [("Other", JObject other_record)]))
    by (vm_compute; reflexivity).
  destruct (save_then_get t0 "Acme Corp" acme_record _ "alice" store0 Hkey Hwf Hload)
    as (fs' & r' & Hsave & Hget & -> & _).
  exists fs'. split; [exact Hsave | exact Hget].
Defined.

(** Importing a text that is not JSON into the store of alice *)
Lemma import_context_malformed_witness :
  import_context t0 "not valid json" "alice" None store0 = (Ok false, store0).
Proof.
  assert (Hkey : "alice" ≠ EmptyString) by discriminate.
  assert (Hbad : json_loads "not valid json" = None) by (vm_compute; reflexivity).
  exact (proj1 (import_context_malformed t0 "not valid json" "alice" None store0
                  Hkey Hbad)).
Defined.

(** C5 (counterexample). The record that alice holds under Acme has the
    company_name Acme Corporation; exported and imported into the fresh
    workspace bob it is stored under Acme Corporation, and bob holds
    nothing under Acme. *)
Lemma export_import_counterexample :
  (∃ r, fst (get_context "Acme" "alice" store_renamed) = Ok (JObject r))
  ∧ fst (load_contexts "bob" store_renamed) = Ok (JObject [])
  ∧ fst (export_import t0 "Acme" "alice" "bob" store_renamed) = Ok true
  ∧ fst (get_context "Acme" "bob"
           (snd (export_import t0 "Acme" "alice" "bob" store_renamed)))
    = Ok JNull
  ∧ fst (get_context_names "bob"
           (snd (export_import t0 "Acme" "alice" "bob" store_renamed)))
    = Ok ["Acme Corporation"].
Proof.
  split; [eexists; vm_compute; reflexivity|].
  split; [vm_compute; reflexivity|].
  split; [vm_compute; reflexivity|].
  split; vm_compute; reflexivity.
Qed.

(** The record of alice, whose company_name is its name, taken over by bob *)
Lemma export_import_round_trip_witness :
  ∃ fs', export_import t0 "Other" "alice" "bob" store0 = (Ok true, fs')
         ∧ ∃ r', get_context "Other" "bob" fs' = (Ok (JObject r'), fs').
Proof.
  assert (Hkey : "alice" ≠ EmptyString) by discriminate.
  assert (Hkey2 : "bob" ≠ EmptyString) by discriminate.
  assert (Hget : fst (get_context "Other" "alice" store0) = Ok (JObject other_record))
    by (vm_compute; reflexivity).
  assert (Hname : dict_get "company_name" other_record = Some (JString "Other"))
    by (vm_compute; reflexivity).
  assert (Hfresh : fst (load_contexts "bob" store0) = Ok (JObject []))
    by (vm_compute; reflexivity).
  destruct (export_import_round_trip t0 "Other" "Other" other_record "alice" "bob"
              store0 Hkey Hkey2 Hget Hname Hfresh) as (fs' & r' & Himp & Hget' & _).
  exists fs'. split; [exact Himp | exists r'; exact Hget'].
Defined.

(** Loading the broken tenant document of alice *)
Lemma load_contexts_malformed_document_witness :
  load_contexts "alice" store_broken = (Ok (JObject []), store_broken).
Proof.
  assert (Hkey : "alice" ≠ EmptyString) by discriminate.
  assert (Hpath : fst (get_user_file_path "alice" store_broken)
                  = Ok "user_contexts/contexts_2bd806c97f0e00af.json")
    by (vm_compute; reflexivity).
  assert (Hfile : store_broken !! "user_contexts/contexts_2bd806c97f0e00af.json"
                  = Some (Text "{broken")) by (vm_compute; reflexivity).
  assert (Hbad : json_loads "{broken" = None) by (vm_compute; reflexivity).
  exact (proj1 (load_contexts_malformed_document "alice" _ _ store_broken
                  Hkey Hpath Hfile Hbad)).
Defined.

(** C7 (counterexample). For the empty workspace key the derivation
    returns the path named after the digest of the empty message. *)
Lemma get_user_file_path_empty_key :
  fst (get_user_file_path EmptyString ∅)
  = Ok "user_contexts/contexts_e3b0c44298fc1c14.json".
Proof. vm_compute. reflexivity. Qed.

(** C6 (failing input). The tenant document of alice holds bytes that
    are not text: loading, listing, reading and saving her contexts
    raise. *)
Lemma load_contexts_undecodable_document_witness :
  load_contexts "alice" store_undecodable
  = (Raise UnicodeDecodeError, store_undecodable)
  ∧ get_context_names "alice" store_undecodable
    = (Raise UnicodeDecodeError, store_undecodable)
  ∧ (∀ n, get_context n "alice" store_undecodable
          = (Raise UnicodeDecodeError, store_undecodable))
  ∧ ∀ now n r, save_context now n r "alice" store_undecodable
               = (Raise UnicodeDecodeError, store_undecodable).
Proof.
  assert (Hkey : "alice" ≠ EmptyString) by discriminate.
  assert (Hpath : fst (get_user_file_path "alice" store_undecodable)
                  = Ok "user_contexts/contexts_2bd806c97f0e00af.json")
    by (vm_compute; reflexivity).
  assert (Hfile : store_undecodable !! "user_contexts/contexts_2bd806c97f0e00af.json"
                  = Some Undecodable) by (vm_compute; reflexivity).
  exact (load_contexts_undecodable_document "alice" _ store_undecodable
           Hkey Hpath Hfile).
Defined.

(** Saving Acme Corp in the store of alice leaves her record Other alone *)
Lemma save_delete_frame_witness :
  fst (get_context "Other" "alice"
         (snd (save_context t0 "Acme Corp" (JObject acme_record) "alice" store0)))
  = fst (get_context "Other" "alice" store0).
Proof.
  assert (Hkey : "alice" ≠ EmptyString) by discriminate.
  assert (Hname : "Other" ≠ "Acme Corp") by discriminate.
  exact (proj1 (save_delete_frame t0 "Acme Corp" "Other" (JObject acme_record)
                  "alice" store0 Hkey Hname)).
Defined.

(** Deleting a name that alice does not hold *)
Lemma delete_context_idempotent_witness :
  delete_context "Ghost" "alice" store0 = (Ok tt, store0).
Proof.
  assert (Hnames : fst (get_context_names "alice" store0) = Ok ["Other"])
    by (vm_compute; reflexivity).
  assert (Habsent : "Ghost" ∉ ["Other"]).
  { intros Hin. apply list_elem_of_singleton in Hin. discriminate Hin. }
  exact (proj1 (delete_context_idempotent "Ghost" "alice" store0)
           (or_intror (ex_intro _ ["Other"] (conj Hnames Habsent)))).
Defined.

(** Importing a JSON list into the store of alice *)
Lemma import_context_not_a_mapping_witness :
  import_context t0 "[1, 2]" "alice" None store0 = (Raise AttributeError, store0).
Proof.
  assert (Hkey : "alice" ≠ EmptyString) by discriminate.
  assert (Hload : json_loads "[1, 2]" = Some (JArray [JInt 1; JInt 2]))
    by (vm_compute; reflexivity).
  assert (Hlist : ∀ fields, JArray [JInt 1; JInt 2] ≠ JObject fields) by discriminate.
  exact (import_context_not_a_mapping t0 "[1, 2]" _ "alice" None store0
           Hkey Hload Hlist).
Defined.

(** C2 (counterexample). Two distinct non-empty workspace keys derive the
    same tenant key and resolve to the same tenant document: what is saved
    under one of them is listed under the other. *)
Lemma key_hash_collision :
  twin_a ≠ EmptyString ∧ twin_b ≠ EmptyString ∧ twin_a ≠ twin_b
  ∧ key_hash twin_a = "ca940513ce17d138"
  ∧ key_hash twin_b = "ca940513ce17d138"
  ∧ fst (get_user_file_path twin_a ∅) = fst (get_user_file_path twin_b ∅)
  ∧ fst (get_context_names twin_b
           (snd (save_context t0 "Acme Corp" (JObject acme_record) twin_a ∅)))
    = Ok ["Acme Corp"].
Proof.
  split; [discriminate|]. split; [discriminate|]. split; [discriminate|].
  split; [vm_compute; reflexivity|]. split; [vm_compute; reflexivity|].
  split; vm_compute; reflexivity.
Qed.

(** The two workspace keys with one tenant key resolve to one path *)
Lemma tenant_document_by_key_witness :
  get_user_file_path twin_a ∅ = get_user_file_path twin_b ∅.
Proof.
  assert (Hkeys : key_hash twin_a = key_hash twin_b) by (vm_compute; reflexivity).
  destruct (tenant_document_by_key twin_a twin_b ∅) as (_ & _ & Hiff).
  exact (proj2 Hiff Hkeys).
Defined.

(** ** Runs of the operations together, and of the pages *)

#[local] Existing Instance python_strip.
#[local] Existing Instance ascii_strip_laws.

Lemma workspaces_are_isolated_witness :
  reads_agree "bob" store0
    (snd (run (SaveContext t0 (JString "Acme Corp") (JObject acme_record) "alice")
            store0)).
Proof.
  assert (Hk : key_hash "alice" ≠ key_hash "bob") by (vm_compute; discriminate).
  exact (workspaces_are_isolated
           (SaveContext t0 (JString "Acme Corp") (JObject acme_record) "alice")
           "bob" store0 Hk).
Defined.

Lemma save_context_lists_name_witness :
  fst (save_context t0 "Acme Corp" (JObject acme_record) "alice" store0) = Ok tt
  ∧ fst (get_context_names "alice"
           (snd (save_context t0 "Acme Corp" (JObject acme_record) "alice" store0)))
    = Ok (if bool_decide ("Acme Corp" ∈ ["Other"]) then ["Other"]
          else (["Other"] ++ ["Acme Corp"])%list).
Proof.
  assert (Hkey : "alice" ≠ EmptyString) by discriminate.
  assert (Hnames : fst (get_context_names "alice" store0) = Ok ["Other"])
    by (vm_compute; reflexivity).
  exact (save_context_lists_name t0 "Acme Corp" acme_record "alice" ["Other"] store0
           Hkey Hnames).
Defined.

Lemma delete_context_removes_witness :
  fst (delete_context "Other" "alice" store0) = Ok tt
  ∧ fst (get_context_names "alice" (snd (delete_context "Other" "alice" store0)))
    = Ok (filter (λ x, x ≠ "Other") ["Other"])
  ∧ fst (get_context "Other" "alice" (snd (delete_context "Other" "alice" store0)))
    = Ok JNull.
Proof.
  assert (Hkey : "alice" ≠ EmptyString) by discriminate.
  assert (Hnames : fst (get_context_names "alice" store0) = Ok ["Other"])
    by (vm_compute; reflexivity).
  exact (delete_context_removes "Other" "alice" ["Other"] store0 Hkey Hnames).
Defined.

Lemma save_context_overwrites_witness :
  let fs1 := snd (save_context t0 "Acme Corp" (JObject acme_record) "alice" store0) in
  let fs2 := snd (save_context t1 "Acme Corp" (JObject other_record) "alice" fs1) in
  fst (get_context "Acme Corp" "alice" fs2)
  = Ok (JObject (dict_set "last_updated" (JString t1) other_record))
  ∧ fst (get_context_names "alice" fs2) = fst (get_context_names "alice" fs1).
Proof.
  assert (Hkey : "alice" ≠ EmptyString) by discriminate.
  assert (Hwf : wf_json (JObject other_record)) by (vm_compute; reflexivity).
  assert (Hnames : fst (get_context_names "alice" store0) = Ok ["Other"])
    by (vm_compute; reflexivity).
  exact (save_context_overwrites t0 t1 "Acme Corp" acme_record other_record "alice"
           ["Other"] store0 Hkey Hwf Hnames).
Defined.

Lemma save_context_replaces_malformed_witness :
  fst (save_context t0 "Acme Corp" (JObject acme_record) "alice" store_broken) = Ok tt
  ∧ fst (load_contexts "alice"
           (snd (save_context t0 "Acme Corp" (JObject acme_record) "alice"
                   store_broken)))
    = Ok (JObject [("Acme Corp",
                    JObject (dict_set "last_updated" (JString t0) acme_record))]).
Proof.
  assert (Hkey : "alice" ≠ EmptyString) by discriminate.
  assert (Hwf : wf_json (JObject acme_record)) by (vm_compute; reflexivity).
  assert (Hpath : fst (get_user_file_path "alice" store_broken)
                  = Ok "user_contexts/contexts_2bd806c97f0e00af.json")
    by (vm_compute; reflexivity).
  assert (Hfile : store_broken !! "user_contexts/contexts_2bd806c97f0e00af.json"
                  = Some (Text "{broken")) by (vm_compute; reflexivity).
  assert (Hbad : json_loads "{broken" = None) by (vm_compute; reflexivity).
  exact (save_context_replaces_malformed t0 "Acme Corp" acme_record "alice" _ _
           store_broken Hkey Hwf Hpath Hfile Hbad).
Defined.

Lemma listing_is_consistent_witness :
  NoDup ["Other"]
  ∧ ∀ n v, fst (get_context n "alice" store0) = Ok v → v ≠ JNull → n ∈ ["Other"].
Proof.
  assert (Hnames : fst (get_context_names "alice" store0) = Ok ["Other"])
    by (vm_compute; reflexivity).
  exact (listing_is_consistent "alice" ["Other"] store0 Hnames).
Defined.

Lemma export_context_reads_back_witness :
  if truthy (JObject other_record)
  then ∃ text, fst (export_context "Other" "alice" store0) = Ok (Some text)
               ∧ json_loads text = Some (JObject other_record)
  else fst (export_context "Other" "alice" store0) = Ok None.
Proof.
  assert (Hget : fst (get_context "Other" "alice" store0) = Ok (JObject other_record))
    by (vm_compute; reflexivity).
  exact (export_context_reads_back "Other" "alice" (JObject other_record) store0 Hget).
Defined.

Lemma import_context_chooses_name_witness :
  fst (import_context t0 anonymous_document "alice" None store0) = Ok true
  ∧ fst (get_context "Imported Context" "alice"
           (snd (import_context t0 anonymous_document "alice" None store0)))
    = Ok (JObject (dict_set "last_updated" (JString t0)
                     [("company_context", JString "rockets")])).
Proof.
  assert (Hkey : "alice" ≠ EmptyString) by discriminate.
  assert (Hload : json_loads anonymous_document
                  = Some (JObject [("company_context", JString "rockets")]))
    by (vm_compute; reflexivity).
  assert (Hnames : fst (get_context_names "alice" store0) = Ok ["Other"])
    by (vm_compute; reflexivity).
  assert (Hcase : (None = Some "Imported Context" ∧ "Imported Context" ≠ EmptyString)
                  ∨ (name_given None = false
                     ∧ dict_get "company_name" [("company_context", JString "rockets")]
                       = None
                     ∧ "Imported Context" = "Imported Context"))
    by (right; split; [reflexivity | split; reflexivity]).
  exact (import_context_chooses_name t0 anonymous_document _ "alice" None
           "Imported Context" ["Other"] store0 Hkey Hload Hnames Hcase).
Defined.


Lemma export_import_under_name_witness :
  ∃ text,
    export_context "Other" "alice" store0 = (Ok (Some text), store0)
    ∧ fst (import_context t0 text "bob" (Some "Copy") store0) = Ok true
    ∧ fst (get_context "Copy" "bob"
             (snd (import_context t0 text "bob" (Some "Copy") store0)))
      = Ok (JObject (dict_set "last_updated" (JString t0) other_record)).
Proof.
  assert (Hkey : "bob" ≠ EmptyString) by discriminate.
  assert (Hname : "Copy" ≠ EmptyString) by discriminate.
  assert (Hrec : other_record ≠ []) by discriminate.
  assert (Hget : fst (get_context "Other" "alice" store0) = Ok (JObject other_record))
    by (vm_compute; reflexivity).
  assert (Hnames : fst (get_context_names "bob" store0) = Ok [])
    by (vm_compute; reflexivity).
  exact (export_import_under_name t0 "Other" "Copy" other_record "alice" "bob" []
           store0 Hkey Hname Hrec Hget Hnames).
Defined.

Example split_csv_runs :
  _split_csv " SBIR, ,Phase I ,,dual-use" = ["SBIR"; "Phase I"; "dual-use"]
  ∧ _split_csv EmptyString = []
  ∧ join_comma ["SBIR"; "Phase I"] = "SBIR, Phase I"
  ∧ split_comma "a,,b," = ["a"; EmptyString; "b"; EmptyString].
Proof. vm_compute. done. Qed.

Lemma split_csv_keywords_witness :
  Forall is_keyword (_split_csv " SBIR, ,Phase I ,,dual-use").
Proof. exact (split_csv_keywords " SBIR, ,Phase I ,,dual-use"). Defined.

Lemma split_csv_join_witness :
  _split_csv (join_comma ["SBIR"; "Phase I"; "dual-use"])
  = ["SBIR"; "Phase I"; "dual-use"].
Proof.
  assert (Hxs : Forall is_keyword ["SBIR"; "Phase I"; "dual-use"])
    by (apply Forall_is_keyword; vm_compute; reflexivity).
  exact (split_csv_join ["SBIR"; "Phase I"; "dual-use"] Hxs).
Defined.

Lemma split_csv_join_split_witness :
  _split_csv (join_comma (_split_csv " SBIR, ,Phase I ,,dual-use"))
  = _split_csv " SBIR, ,Phase I ,,dual-use".
Proof. exact (split_csv_join_split " SBIR, ,Phase I ,,dual-use"). Defined.

Lemma new_context_keeps_default_criteria_witness :
  ∃ strings,
    fst (criteria_strings (DEFAULT_PREFERRED_CRITERIA None)
           (create_default_context (DEFAULT_PREFERRED_CRITERIA None) t0) ∅)
    = Ok strings
    ∧ updated_criteria (with_criteria form_acme strings)
      = DEFAULT_PREFERRED_CRITERIA None.
Proof.
  assert (Hsy : Forall is_keyword
    ["SBIR"; "STTR"; "early-stage"; "Phase I"; "Phase II";
     "emerging technology"; "small business innovation";
     "commercialization pathway"; "technology de-risking";
     "startup-friendly"; "NSF"; "pilot project"; "dual-use"])
    by (apply Forall_is_keyword; vm_compute; reflexivity).
  assert (Hts : Forall is_keyword
    ["resilient systems"; "zero-trust"; "autonomous"; "decision-making";
     "secure data workflows"; "operational AI"])
    by (apply Forall_is_keyword; vm_compute; reflexivity).
  assert (Hso : Forall is_keyword
    ["human decision-making"; "data-informed decisions";
     "mission planning"; "workflow augmentation"; "data visualization"])
    by (apply Forall_is_keyword; vm_compute; reflexivity).
  assert (Hsn : Forall is_keyword
    ["urban planning"; "transportation modeling";
     "community behavior analytics"; "infrastructure investment";
     "socioeconomic planning"])
    by (apply Forall_is_keyword; vm_compute; reflexivity).
  exact (new_context_keeps_default_criteria t0 _ _ _ _ form_acme ∅ Hsy Hts Hso Hsn).
Defined.

Lemma editor_save_stores_witness :
  let name := py_strip (company_name form_acme) in
  if String.eqb name EmptyString
  then editor_save t0 form_acme "alice" store0 = (Ok NameRequired, store0)
  else fst (editor_save t0 form_acme "alice" store0) = Ok (Saved name)
       ∧ fst (get_context name "alice" (snd (editor_save t0 form_acme "alice" store0)))
         = Ok (JObject
                 [("company_name", JString name);
                  ("company_context",
                   JString (py_strip (company_context_text form_acme)));
                  ("preferred_grant_criteria", updated_criteria form_acme);
                  ("last_updated", JString t0)]).
Proof.
  assert (Hkey : "alice" ≠ EmptyString) by discriminate.
  assert (Hnames : fst (get_context_names "alice" store0) = Ok ["Other"])
    by (vm_compute; reflexivity).
  exact (editor_save_stores t0 form_acme "alice" ["Other"] store0 Hkey Hnames).
Defined.

Lemma editor_resave_keeps_criteria_witness :
  ∃ strings,
    fst (criteria_strings generic_criteria
           (JObject [("company_name", JString "Acme Corp");
                     ("preferred_grant_criteria", updated_criteria form_acme)]) ∅)
    = Ok strings
    ∧ updated_criteria (with_criteria form_acme strings) = updated_criteria form_acme.
Proof.
  assert (Hcrit : dict_get "preferred_grant_criteria"
                    [("company_name", JString "Acme Corp");
                     ("preferred_grant_criteria", updated_criteria form_acme)]
                  = Some (updated_criteria form_acme)) by reflexivity.
  exact (editor_resave_keeps_criteria generic_criteria form_acme form_acme _ ∅ Hcrit).
Defined.

Lemma workspace_key_is_never_empty_witness :
  "alice" ≠ EmptyString ∧ py_strip "alice" = "alice".
Proof.
  assert (Hrun : get_workspace_key prompt_alice (script_runs [prompt_alice] None)
                 = (ReturnKey "alice", Some "alice")) by (vm_compute; reflexivity).
  exact (workspace_key_is_never_empty [prompt_alice] prompt_alice "alice" _ Hrun).
Defined.

Lemma workspace_key_accepted_witness :
  fst (get_workspace_key prompt_alice None) = StRerun
  ∧ fst (get_workspace_key prompt_alice
           (script_runs [prompt_alice] (snd (get_workspace_key prompt_alice None))))
    = ReturnKey (py_strip (key_1 prompt_alice)).
Proof.
  assert (Hs : @None string = None ∨ None = Some EmptyString) by (left; reflexivity).
  assert (Hpressed : access_pressed prompt_alice = true) by reflexivity.
  assert (Hk : py_strip (key_1 prompt_alice) ≠ EmptyString)
    by (vm_compute; discriminate).
  assert (Heq : py_strip (key_1 prompt_alice) = py_strip (key_2 prompt_alice))
    by (vm_compute; reflexivity).
  exact (workspace_key_accepted prompt_alice [prompt_alice] prompt_alice None
           Hs Hpressed Hk Heq).
Defined.

Lemma gcp_environment_masks_secrets_witness :
  get_gcp_service_account environ_broken (Ok (JObject [("type", JString "service_account")]))
  = Ok (match json_loads "{broken" with Some v => v | None => JNull end).
Proof.
  assert (Henv : environ_broken !! "GOOGLE_SERVICE_ACCOUNT_JSON" = Some "{broken")
    by (vm_compute; reflexivity).
  assert (Htext : "{broken" ≠ EmptyString) by discriminate.
  exact (gcp_environment_masks_secrets environ_broken "{broken" _ Henv Htext).
Defined.
